(** * The graph REST resource of the cis girder plugin

    A shallow embedding of [server/rest/graph.py]: the route handlers of the
    [graph] resource, written as computations in a state-and-exception monad
    over the request's world (document store, filesystem, session, output
    and the calls made to collaborators), followed by the properties the
    specification states about them. *)

From Stdlib Require Import ZArith.
From stdpp Require Import gmap strings list fin_maps.

Local Open Scope string_scope.
Set Warnings "-register-all".

(** ** JSON values

    Request bodies and stored records are JSON documents: [jsonParam] hands
    the handler whatever [json.loads] produced, which need not be an object.
    Numbers are kept integral; the handlers only test them for truth. *)

Inductive json :=
| JNull
| JBool (b : bool)
| JNum (n : Z)
| JStr (s : string)
| JList (l : list json)
| JObj (m : gmap string json).

(** A Python dict with string keys. *)
Abbreviation doc := (gmap string json).

(** Python truth value of a JSON value, as [if x:] and [x and y] take it. *)
Definition truthy (v : json) : bool :=
  match v with
  | JNull => false
  | JBool b => b
  | JNum n => negb (n =? 0)%Z
  | JStr s => negb (String.eqb s "")
  | JList l => match l with [] => false | _ :: _ => true end
  | JObj m => negb (bool_decide (m = ∅))
  end.

(** ** Exceptions

    [KeyError], [TypeError] and [OSError] are Python's own; [RestException],
    [AccessException] and [ValidationException] are the framework's.  An
    exception that comes out of a collaborator (the translator, the YAML
    library, the schema, the job dispatcher) is kept apart as [Raised] with
    its text: the handlers never inspect it, they let it through or, around
    [validate], wrap its text. *)

Inductive exn :=
| KeyError (key : string)
| TypeError
| OSError (path : string)
| RestException (message : string) (code : Z) (extra : option string)
| AccessException (message : string)
| ValidationException (message : string)
| Raised (text : string).

Inductive result (A : Type) :=
| Ok (a : A)
| Err (e : exn).
Arguments Ok {A} a.
Arguments Err {A} e.

(** The status the framework's endpoint wrapper answers with. *)
Definition status (logged_in : bool) (e : exn) : Z :=
  match e with
  | RestException _ code _ => code
  | AccessException _ => if logged_in then 403 else 401
  | ValidationException _ => 400
  | _ => 500
  end.

(** ** The world of a request *)

(** A user document; the framework's user model always carries these. *)
Record user := User { u_id : string; login : string; admin : bool }.

(** Calls that leave the handler: [print], the storage model being asked to
    save a record, and a job being handed to [execGraph]. *)
Inductive event :=
| Print (text : string)
| Persist (record : doc)
| Dispatch (yaml : string) (username : string).

Record world := World {
  db : gmap string doc;          (* the graph collection, by _id *)
  fs : gmap string string;       (* files, by path *)
  session : option user;         (* what getCurrentUser() answers *)
  raw : bool;                    (* setRawResponse() was called *)
  calls : list event             (* oldest first *)
}.

Definition with_db (f : gmap string doc → gmap string doc) (w : world) : world :=
  World (f (db w)) (fs w) (session w) (raw w) (calls w).
Definition with_fs (f : gmap string string → gmap string string) (w : world) : world :=
  World (db w) (f (fs w)) (session w) (raw w) (calls w).
Definition with_raw (b : bool) (w : world) : world :=
  World (db w) (fs w) (session w) b (calls w).
Definition with_call (e : event) (w : world) : world :=
  World (db w) (fs w) (session w) (raw w) (calls w ++ [e]).

(** ** The monad of handlers: state that survives an exception *)

Definition M (A : Type) : Type := world → result A * world.

Definition ret {A} (a : A) : M A := λ w, (Ok a, w).
Definition raise {A} (e : exn) : M A := λ w, (Err e, w).
Definition bind {A B} (c : M A) (k : A → M B) : M B :=
  λ w, match c w with
       | (Ok a, w') => k a w'
       | (Err e, w') => (Err e, w')
       end.
Definition gets {A} (f : world → A) : M A := λ w, (Ok (f w), w).
Definition modify (f : world → world) : M unit := λ w, (Ok tt, f w).

(** A collaborator's answer: its value, or its exception on the way out. *)
Definition lift {A} (r : string + A) : M A :=
  match r with
  | inr a => ret a
  | inl text => raise (Raised text)
  end.

Declare Scope handler_scope.
Delimit Scope handler_scope with handler.
Bind Scope handler_scope with M.
Notation "x ← y ; z" := (bind y (λ x, z))
  (at level 20, y at level 100, z at level 200, only parsing) : handler_scope.
Notation "x ;; z" := (bind x (λ _, z))
  (at level 100, z at level 200, only parsing, right associativity) : handler_scope.
Local Open Scope handler_scope.

(** ** Python on JSON values *)

(** [graph[key]] for a string key: only a dict answers. *)
Definition getitem (graph : json) (key : string) : M json :=
  match graph with
  | JObj m => match m !! key with
              | Some v => ret v
              | None => raise (KeyError key)
              end
  | _ => raise TypeError
  end.

Definition is_str (key : string) (v : json) : bool :=
  match v with
  | JStr s => String.eqb s key
  | _ => false
  end.

(** [key in graph]: a key of a dict, an element of a list, a substring of a
    string; nothing else is iterable. *)
Definition contains (key : string) (graph : json) : M bool :=
  match graph with
  | JObj m => ret (bool_decide (is_Some (m !! key)))
  | JList l => ret (existsb (is_str key) l)
  | JStr s => ret (bool_decide (is_Some (String.index 0 key s)))
  | _ => raise TypeError
  end.

(** [self.getCurrentUser()] and [user[...]] on what it answered. *)
Definition getCurrentUser : M (option user) := gets session.

Definition user_item {A} (field : user → A) (u : option user) : M A :=
  match u with
  | Some u => ret (field u)
  | None => raise TypeError
  end.

(** [print(e)] and [self.setRawResponse()]. *)
Definition print (text : string) : M unit := modify (with_call (Print text)).
Definition setRawResponse : M unit := modify (with_raw true).

(** ** The filesystem *)

(** [os.remove(path)]. *)
Definition os_remove (path : string) : M unit :=
  λ w, match fs w !! path with
       | Some _ => (Ok tt, with_fs (delete path) w)
       | None => (Err (OSError path), w)
       end.

Definition write_file (path text : string) : M unit :=
  modify (with_fs (insert path text)).

(** ** Collaborators

    What the handlers call and this file does not define: the translator
    and the dispatcher of [..utils], PyYAML and pyaml, yggdrasil's
    [prep_yaml], [get_schema] and [as_str], and [tempfile]'s choice of a
    name.  Each is a function of what it is given and leaves the world
    alone ([prep_yaml] reads the files, [execGraph]'s call is recorded by
    the handler's side); one that can raise answers [inl] with the
    exception's text.  The documents they exchange are never looked into
    by the handlers, so their type is the collaborators' own. *)

Record Schema (D : Type) := {
  normalize : D → string + D;
  validate : D → option string   (* [Some e]: raises [e] *)
}.
Arguments normalize {D} _ _.
Arguments validate {D} _ _.

Record Engine := {
  ydoc : Type;
  fbpToCis : json → string + ydoc;
  as_str : ydoc → ydoc;
  mktemp : gmap string string → string;
  safe_dump : ydoc → string + string;
  prep_yaml : string → gmap string string → string + ydoc;
  get_schema : string + Schema ydoc;
  pyaml_dump : ydoc → string + string;
  yaml_load : string → option ydoc;
  execGraph : string → string → string + json
}.

Inductive AccessType := READ | WRITE | ADMIN.

(** The storage side: the framework's access decision for a record, the
    fields its [filter] lets a user see, the identifier it gives a new
    record, its clock, and the fields a new record takes from a body.
    The framework's filter works out the caller's access level itself:
    [model_filter] stands for all of it, and nothing below takes it to be
    independent of [hasAccess]. *)
Record Storage := {
  hasAccess : doc → option user → AccessType → bool;
  model_filter : doc → option user → doc;
  validObjectId : string → bool;
  newId : gmap string doc → string;
  utcnow : json;
  newRecord : doc → user → doc
}.

Section Resource.
Context (E : Engine) (S : Storage).

(** ** The framework's loading of a record named in the path *)

Definition access_word (level : AccessType) : string :=
  match level with
  | READ => "Read"
  | WRITE => "Write"
  | ADMIN => "Admin"
  end.

(** [AccessControlledModel.load(id, level, user, force)]: [force] skips
    the access check. *)
Definition model_load (id : string) (level : AccessType) (u : option user)
    (force : bool) : M (option doc) :=
  if validObjectId S id then
    found ← gets (λ w, db w !! id);
    match found with
    | Some g =>
        if force || hasAccess S g u level then ret (Some g)
        else raise (AccessException (access_word level ++ " access denied for graph " ++ id))
    | None => ret None
    end
  else raise (ValidationException ("Invalid ObjectId: " ++ id)).

(** [.modelParam('id', model='graph', plugin='cis', level=..., force=...)]
    as [autoDescribeRoute] carries it out. *)
Definition modelParam (level : option AccessType) (force : bool) (id : string) : M doc :=
  found ← (if force then model_load id ADMIN None true
           else match level with
                | Some l => u ← getCurrentUser; model_load id l u false
                | None => model_load id ADMIN None false
                end);
  match found with
  | Some g => ret g
  | None => raise (RestException ("Invalid graph id (" ++ id ++ ").") 400 None)
  end.

(** [@access.user], [@access.public] and [@filtermodel]. *)
Definition access_user {A} (handler : M A) : M A :=
  u ← getCurrentUser;
  match u with
  | Some _ => handler
  | None => raise (AccessException "You must be logged in.")
  end.

Definition access_public {A} (handler : M A) : M A := handler.

Definition filtermodel (handler : M doc) : M doc :=
  g ← handler;
  u ← getCurrentUser;
  ret (model_filter S g u).

(** ** The storage model of graphs *)

(** Modelled from the spec: the storage layer's save, reached through the
    graph model of [models/graph.py], which is not part of the sources.
    A record that has its [_id] replaces the stored one; a record
    without one is given an identifier by the storage layer. *)
Definition model_save (g : doc) : M doc :=
  match g !! "_id" with
  | Some (JStr i) => modify (with_db (insert i g));; ret g
  | _ =>
      i ← gets (λ w, newId S (db w));
      let g := <["_id" := JStr i]> g in
      modify (with_db (insert i g));; ret g
  end.

(** Modelled from the spec: the graph model's [updateGraph] of
    [models/graph.py], of which the spec says that the handler
    "persists via storage model", the timestamps being "managed by the
    storage layer": [updated], "the last time when the graph was
    modified", is set to the time of the call, and the record is saved. *)
Definition model_updateGraph (g : doc) : M doc :=
  modify (with_call (Persist g));;
  model_save (<["updated" := utcnow S]> g).

(** Modelled from the spec: the graph model's [createGraph] of
    [models/graph.py]: it "persist[s] a new graph record tagged with the
    creator" and "returns the created record", the storage layer
    assigning identifier and timestamps.  Which fields of the body the
    record takes is left to [newRecord]. *)
Definition model_createGraph (graph : json) (creator : option user) (save : bool) : M doc :=
  match creator, graph with
  | Some u, JObj m =>
      let obj := <["creatorId" := JStr (u_id u)]>
                   (<["updated" := utcnow S]> (<["created" := utcnow S]> (newRecord S m u))) in
      if save then modify (with_call (Persist obj));; model_save obj
      else ret obj
  | _, _ => raise TypeError
  end.

(** ** The handlers *)

(** Lines 122-128. *)
Definition createGraph (graph : json) : M doc :=
  user ← getCurrentUser;
  model_createGraph graph user true.

(** Lines 139-141. *)
Definition getGraph (graph : doc) : M doc := ret graph.

(** Lines 165-177.  [graphObj] is the dict the loader read from the
    store: the assignments change that dict, and the stored record changes
    only when the storage model is called with it. *)
Definition updateGraph (graphObj : doc) (graph : json) : M doc :=
  user ← getCurrentUser;
  name ← getitem graph "name";
  let graphObj := <["name" := name]> graphObj in
  content ← getitem graph "content";
  let graphObj := <["content" := content]> graphObj in
  refused ← (present ← contains "public" graph;
             if present then
               public ← getitem graph "public";
               if truthy public then
                 is_admin ← user_item admin user;
                 ret (negb is_admin)
               else ret false
             else ret false);
  if refused then
    raise (RestException "Not authorized to create public graphs" 403 None)
  else
    present ← contains "public" graph;
    graphObj ← (if present then
                  public ← getitem graph "public";
                  ret (<["public" := public]> graphObj)
                else ret graphObj);
    model_updateGraph graphObj.

(** [tempfile.NamedTemporaryFile(suffix="yml", prefix="cis", delete=False)]:
    the file exists, empty, once the call returns. *)
Definition NamedTemporaryFile : M string :=
  name ← gets (λ w, mktemp E (fs w));
  write_file name "";;
  ret name.

(** [yaml.safe_dump(cisgraph, tmpfile, default_flow_style=False)]: the
    document is represented before anything is written, and the stream is
    flushed at the end. *)
Definition yaml_safe_dump (cisgraph : ydoc E) (tmpfile : string) : M unit :=
  text ← lift (safe_dump E cisgraph);
  write_file tmpfile text.

(** [prep_yaml(tmpfile.name)]. *)
Definition read_prep_yaml (name : string) : M (ydoc E) :=
  files ← gets fs;
  lift (prep_yaml E name files).

(** [execGraph(yaml_graph, username)]. *)
Definition call_execGraph (yaml_graph username : string) : M json :=
  modify (with_call (Dispatch yaml_graph username));;
  lift (execGraph E yaml_graph username).

(** Lines 187-209. *)
Definition convertGraph (graph : json) : M string :=
  content ← getitem graph "content";
  cisgraph ← lift (fbpToCis E content);
  let cisgraph := as_str E cisgraph in
  tmpfile ← NamedTemporaryFile;
  yaml_safe_dump cisgraph tmpfile;;
  yml_prep ← read_prep_yaml tmpfile;
  os_remove tmpfile;;
  s ← lift (get_schema E);
  yml_norm ← lift (normalize s yml_prep);
  match validate s yml_norm with
  | Some e => print e;; raise (RestException "Invalid graph %s" 400 (Some e))
  | None => ret tt
  end;;
  setRawResponse;;
  lift (pyaml_dump E cisgraph).

(** Lines 219-247. *)
Definition executeGraph (graph : json) : M json :=
  content ← getitem graph "content";
  cisgraph ← lift (fbpToCis E content);
  user ← getCurrentUser;
  username ← user_item login user;
  let cisgraph := as_str E cisgraph in
  tmpfile ← NamedTemporaryFile;
  yaml_safe_dump cisgraph tmpfile;;
  yml_prep ← read_prep_yaml tmpfile;
  os_remove tmpfile;;
  s ← lift (get_schema E);
  yml_norm ← lift (normalize s yml_prep);
  match validate s yml_norm with
  | Some e => print e;; raise (RestException "Invalid graph %s" 400 (Some e))
  | None => ret tt
  end;;
  setRawResponse;;
  yaml_graph ← lift (pyaml_dump E cisgraph);
  call_execGraph yaml_graph username.

(** ** The routes, with their declared access and parameters *)

Definition GET_graph_id (id : string) : M doc :=
  access_public (filtermodel (graph ← modelParam None true id; getGraph graph)).

Definition PUT_graph_id (id : string) (body : json) : M doc :=
  access_user (graphObj ← modelParam (Some WRITE) false id; updateGraph graphObj body).

Definition POST_graph (body : json) : M doc :=
  access_user (createGraph body).

Definition POST_graph_convert (body : json) : M string :=
  access_public (convertGraph body).

Definition POST_graph_execute (body : json) : M json :=
  access_user (executeGraph body).

End Resource.

(** * What the specification speaks of *)

(** Exceptions the framework answers with a status of their own; anything
    else surfaces as a generic server error. *)
Definition framework_error (e : exn) : bool :=
  match e with
  | RestException _ _ _ | AccessException _ | ValidationException _ => true
  | _ => false
  end.

(** A field of a stored record. *)
Definition stored_field (w : world) (id key : string) : option json :=
  match db w !! id with
  | Some g => g !! key
  | None => None
  end.

(** ** The conversion pipeline of convert and execute

    What a call has in hand when it reaches [s.validate]: the converted
    graph, the temporary file's path and text, what [prep_yaml] read back,
    the schema and the normalized document. *)
Record staging (E : Engine) := Staging {
  st_cis : ydoc E;
  st_path : string;
  st_text : string;
  st_prep : ydoc E;
  st_schema : Schema (ydoc E);
  st_norm : ydoc E
}.
Arguments Staging {E} _ _ _ _ _ _.
Arguments st_cis {E} _.
Arguments st_path {E} _.
Arguments st_text {E} _.
Arguments st_prep {E} _.
Arguments st_schema {E} _.
Arguments st_norm {E} _.

Definition staged {E : Engine} (graph : json) (w : world) (r : staging E) : Prop :=
  ∃ m content converted,
    graph = JObj m ∧ m !! "content" = Some content ∧
    fbpToCis E content = inr converted ∧
    st_cis r = as_str E converted ∧
    st_path r = mktemp E (fs w) ∧
    safe_dump E (st_cis r) = inr (st_text r) ∧
    prep_yaml E (st_path r) (<[st_path r := st_text r]> (fs w)) = inr (st_prep r) ∧
    get_schema E = inr (st_schema r) ∧
    normalize (st_schema r) (st_prep r) = inr (st_norm r).

(** The schema validator raises [e] on the normalized graph. *)
Definition rejected {E : Engine} (graph : json) (w : world) (r : staging E)
    (e : string) : Prop :=
  staged graph w r ∧ validate (st_schema r) (st_norm r) = Some e.

(** The content converts and passes schema validation. *)
Definition accepted {E : Engine} (graph : json) (w : world) (r : staging E) : Prop :=
  staged graph w r ∧ validate (st_schema r) (st_norm r) = None.

(** The world once the temporary file is gone again. *)
Definition unstaged {E : Engine} (r : staging E) (w : world) : world :=
  with_fs (delete (st_path r)) w.

(** [yaml_load] reads back what [pyaml.dump] wrote. *)
Definition dump_load_roundtrip (E : Engine) : Prop :=
  ∀ d text, pyaml_dump E d = inr text → yaml_load E text = Some d.

(** The validation error of lines 206 and 241. *)
Definition invalid_graph (e : string) : exn :=
  RestException "Invalid graph %s" 400 (Some e).

(** The refusal of line 173. *)
Definition not_authorized : exn :=
  RestException "Not authorized to create public graphs" 403 None.

(** ** The sentences of the specification that the code does not bear out,
    as they are worded *)

(** "convertGraph returns the normalized form serialized as text": the
    text re-parses to the normalized document. *)
Definition returns_normalized_form (E : Engine) (graph : json) (w : world) : Prop :=
  ∀ r : staging E, accepted graph w r →
    ∃ text w', convertGraph E graph w = (Ok text, w') ∧
               yaml_load E text = Some (st_norm r).

(** "a thrown validation error before the removal step leaves the file
    orphaned". *)
Definition leaves_file_orphaned (E : Engine) (graph : json) (w : world) : Prop :=
  ∀ (r : staging E) e, rejected graph w r e →
    is_Some (fs (convertGraph E graph w).2 !! st_path r).

(** "fails with 403 and leaves the stored record unchanged", with no
    persistence call. *)
Definition refused_untouched (S : Storage) (graphObj : doc) (graph : json)
    (w : world) : Prop :=
  ∃ message extra w',
    updateGraph S graphObj graph w = (Err (RestException message 403 extra), w') ∧
    db w' = db w ∧ calls w' = calls w.

(** "the persisted record has public equal to" the body's value. *)
Definition persists_public (S : Storage) (graphObj : doc) (graph : json)
    (w : world) (id : string) (public : json) : Prop :=
  stored_field (updateGraph S graphObj graph w).2 id "public" = Some public.

(** "an update writes only the name, content, and (conditionally) public
    fields, leaving creatorId and all other stored fields as they
    were". *)
Definition leaves_other_fields (S : Storage) (graphObj : doc) (graph : json)
    (w : world) : Prop :=
  ∀ id key,
    key ≠ "name" → key ≠ "content" → key ≠ "public" →
    stored_field (updateGraph S graphObj graph w).2 id key = stored_field w id key.

(** * A small installation to run the handlers on

    Documents are their own YAML text; translation takes the content as it
    is; normalization appends a default; validation asks for a [models]
    entry. *)
Module Sample.

Definition newline : string := String (Ascii.ascii_of_nat 10) "".

Definition with_defaults (d : string) : string := d ++ newline ++ "working_dir: .".

Definition schema : Schema string := {|
  normalize d := inr (with_defaults d);
  validate d := if String.prefix "models:" d then None
                else Some "'models' is a required property"
|}.

Definition engine : Engine := {|
  ydoc := string;
  fbpToCis content := match content with
                      | JStr text => inr text
                      | _ => inl "content is not text"
                      end;
  as_str d := d;
  mktemp _ := "/tmp/cisq1w2e3yml";
  safe_dump d := inr d;
  prep_yaml path files := match files !! path with
                          | Some text => inr text
                          | None => inl "No such file"
                          end;
  get_schema := inr schema;
  pyaml_dump d := inr d;
  yaml_load text := Some text;
  execGraph yaml_graph username := inr (JStr username)
|}.

Definition is_public (g : doc) : bool :=
  match g !! "public" with
  | Some (JBool true) => true
  | _ => false
  end.

Definition created_by (g : doc) (u : user) : bool :=
  match g !! "creatorId" with
  | Some (JStr i) => String.eqb i (u_id u)
  | _ => false
  end.

Definition storage : Storage := {|
  hasAccess g u level :=
    match u, level with
    | Some u, READ => admin u || created_by g u || is_public g
    | Some u, _ => admin u || created_by g u
    | None, READ => is_public g
    | None, _ => false
    end;
  model_filter g u := g;
  validObjectId id := negb (String.eqb id "");
  newId _ := "5873dcdbaec030000144d234";
  utcnow := JStr "2017-01-09T18:56:27";
  newRecord m u := m
|}.

Definition root : user := User "u0" "root" true.
Definition alice : user := User "u1" "alice" false.

(** A private graph of root's and a public one. *)
Definition plant : doc :=
  <["_id" := JStr "g1"]> (<["name" := JStr "Fake Plant"]>
  (<["content" := JStr "models: []"]> (<["creatorId" := JStr "u0"]> ∅))).

Definition shared : doc := <["_id" := JStr "g2"]> (<["public" := JBool true]> plant).

Definition graphs : gmap string doc := <["g1" := plant]> (<["g2" := shared]> ∅).

Definition visit (who : option user) : world := World graphs ∅ who false [].

Definition valid_body : json := JObj (<["content" := JStr "models: []"]> ∅).
Definition invalid_body : json := JObj (<["content" := JStr "connections: []"]> ∅).

Definition valid_run : staging engine :=
  Staging (E := engine) "models: []" "/tmp/cisq1w2e3yml" "models: []" "models: []" schema
    (with_defaults "models: []").
Definition invalid_run : staging engine :=
  Staging (E := engine) "connections: []" "/tmp/cisq1w2e3yml" "connections: []"
    "connections: []" schema (with_defaults "connections: []").

Definition rename (public : option json) : json :=
  let m : doc := <["name" := JStr "Plant"]> (<["content" := JStr "models: []"]> ∅) in
  JObj (match public with Some p => <["public" := p]> m | None => m end).

Definition only_public (p : json) : json := JObj (<["public" := p]> ∅).

End Sample.

(** * The rest of the resource

    The handlers and declarations of [graph.py] that remain: listing,
    deletion, job logs, and the table of routes. *)

(** What they call besides the collaborators above: the user collection
    behind [self.model('user')], the graph model's [list] of
    [models/graph.py], and [getLogs] of [..utils]. *)
Record Site := {
  user_collection : gmap string user;
  model_list : option user → option user → Z → Z → list (string * Z) →
               gmap string doc → list doc;
  utils_getLogs : string → string → string → string + json
}.

Section Routes.
Context (E : Engine) (S : Storage) (X : Site).

(** [self.model('user').load(userId, force=True, exc=True)]: no access
    check, and a user that does not exist is an exception. *)
Definition user_load (userId : string) : M user :=
  if validObjectId S userId then
    match user_collection X !! userId with
    | Some u => ret u
    | None => raise (ValidationException ("No such user: " ++ userId))
    end
  else raise (ValidationException ("Invalid ObjectId: " ++ userId)).

(** Python truth value of an optional string parameter. *)
Definition given (p : option string) : bool :=
  match p with
  | Some s => negb (String.eqb s "")
  | None => false
  end.

(** Lines 102-112.  [limit], [offset] and [sort] come from
    [pagingParams]; [params] is what else the query carried. *)
Definition listGraphs (userId text : option string) (limit offset : Z)
    (sort : list (string * Z)) (params : gmap string string) : M (list doc) :=
  currentUser ← getCurrentUser;
  user ← (if given userId then
            u ← user_load (default "" userId);
            ret (Some u)
          else ret None);
  stored ← gets db;
  ret (model_list X user currentUser offset limit sort stored).

(** [@filtermodel] on a handler that answers a list. *)
Definition filtermodel_list (handler : M (list doc)) : M (list doc) :=
  found ← handler;
  u ← getCurrentUser;
  ret (map (λ g, model_filter S g u) found).

(** Modelled from the spec: the storage model's [remove], reached through
    the graph model of [models/graph.py]: the handler "delegates removal
    to storage model".  The stored record with the given record's [_id]
    goes; a record without one trips the storage layer's assertion. *)
Definition model_remove (g : doc) : M unit :=
  match g !! "_id" with
  | Some (JStr i) => modify (with_db (delete i))
  | _ => raise (Raised "AssertionError")
  end.

(** Lines 151-153. *)
Definition deleteGraph (graph : doc) : M unit :=
  model_remove graph.

(** Lines 256-266. *)
Definition getLogs (name : string) : M json :=
  user ← getCurrentUser;
  username ← user_item login user;
  let job_name := name in
  let job_type := "k8s.io/yggdrasil" in
  lift (utils_getLogs X job_name job_type username).

Definition GET_graph (userId text : option string) (limit offset : Z)
    (sort : list (string * Z)) (params : gmap string string) : M (list doc) :=
  access_public (filtermodel_list (listGraphs userId text limit offset sort params)).

Definition DELETE_graph_id (id : string) : M unit :=
  access_user (graph ← modelParam S (Some ADMIN) false id; deleteGraph graph).

Definition GET_graph_execute_logs (name : string) : M json :=
  access_user (getLogs name).

End Routes.

(** ** The table of routes (lines 83-90) *)

Inductive method := GET | POST | PUT | DELETE.

Inductive handler :=
| ListGraphs | GetGraph | CreateGraph | UpdateGraph | DeleteGraph
| ConvertGraph | ExecuteGraph | GetLogs.

Definition routes : list (method * list string * handler) :=
  [ (GET, [], ListGraphs);
    (GET, [":id"], GetGraph);
    (POST, [], CreateGraph);
    (PUT, [":id"], UpdateGraph);
    (DELETE, [":id"], DeleteGraph);
    (POST, ["convert"], ConvertGraph);
    (POST, ["execute"], ExecuteGraph);
    (GET, ["execute"; ":name"; "logs"], GetLogs) ].

Definition method_eqb (a b : method) : bool :=
  match a, b with
  | GET, GET | POST, POST | PUT, PUT | DELETE, DELETE => true
  | _, _ => false
  end.

(** A route component that starts with a colon is a wildcard; what
    follows the colon names it. *)
Definition wildcard (component : string) : option string :=
  match component with
  | String c name => if String.eqb (String c "") ":" then Some name else None
  | "" => None
  end.

(** The framework's match of a path against a route of the same length:
    the wildcards' bindings, or nothing when a literal differs. *)
Fixpoint matchRoute (path route : list string) : option (list (string * string)) :=
  match path, route with
  | [], [] => Some []
  | p :: path, r :: route =>
      match wildcard r with
      | Some name =>
          match matchRoute path route with
          | Some bound => Some ((name, p) :: bound)
          | None => None
          end
      | None => if String.eqb r p then matchRoute path route else None
      end
  | _, _ => None
  end.

(** Every declared route that a request matches, in order of
    declaration. *)
Definition matching (m : method) (path : list string)
    : list (handler * list (string * string)) :=
  omap (λ '(m', route, h),
          if method_eqb m m' then
            match matchRoute path route with
            | Some bound => Some (h, bound)
            | None => None
            end
          else None) routes.

(** What [@access.user] raises for a caller without a session. *)
Definition must_log_in : exn := AccessException "You must be logged in.".

(** ** What a step leaves alone *)

(** [c] keeps [R] between the world it starts in and the one it ends in,
    however it ends. *)
Definition preserves {A} (R : world → world → Prop) (c : M A) : Prop :=
  ∀ w, R w (c w).2.

(** The store, the session and the record of saves are as they were. *)
Definition store_untouched (w w' : world) : Prop :=
  db w' = db w ∧ session w' = session w ∧
  ∀ g, Persist g ∈ calls w' → Persist g ∈ calls w.

(** Every file but [path] is as it was. *)
Definition files_untouched_but (path : string) (w w' : world) : Prop :=
  ∀ other, other ≠ path → fs w' !! other = fs w !! other.

(** Every stored record carries the identifier it is stored under. *)
Definition store_wf (w : world) : Prop :=
  ∀ id g, db w !! id = Some g → g !! "_id" = Some (JStr id).

(** ** The sample installation, continued *)
Module SampleSite.

Definition created_by_user (u : option user) (g : doc) : bool :=
  match u with
  | Some u => Sample.created_by g u
  | None => true
  end.

Definition site : Site := {|
  user_collection := <["u0" := Sample.root]> (<["u1" := Sample.alice]> ∅);
  model_list user currentUser offset limit sort stored :=
    List.filter (λ g, created_by_user user g && hasAccess Sample.storage g currentUser READ)
      (map snd (map_to_list stored));
  utils_getLogs job_name job_type username :=
    inr (JStr (job_type ++ ":" ++ username ++ ":" ++ job_name))
|}.

(** The private graph as the store holds it, with the stamps of the day
    it was created; and a store that has nothing else. *)
Definition dated : doc :=
  <["created" := JStr "2016-12-24T10:00:00"]>
    (<["updated" := JStr "2016-12-24T10:00:00"]> Sample.plant).

Definition archive (who : option user) : world :=
  World (<["g1" := dated]> ∅) ∅ who false [].

(** A storage side whose filter goes by the caller's access level, as the
    framework's does: the level is reported, and a caller who may not
    read sees no field of the record. *)
Definition access_level (g : doc) (u : option user) : Z :=
  if hasAccess Sample.storage g u ADMIN then 2
  else if hasAccess Sample.storage g u WRITE then 1
  else if hasAccess Sample.storage g u READ then 0
  else (-1).

Definition guarded : Storage := {|
  hasAccess := hasAccess Sample.storage;
  model_filter g u :=
    <["_accessLevel" := JNum (access_level g u)]>
      (if (0 <=? access_level g u)%Z then g else ∅);
  validObjectId := validObjectId Sample.storage;
  newId := newId Sample.storage;
  utcnow := utcnow Sample.storage;
  newRecord := newRecord Sample.storage
|}.

End SampleSite.

(** * Properties *)

Ltac run :=
  unfold convertGraph, executeGraph, call_execGraph, NamedTemporaryFile,
    yaml_safe_dump, read_prep_yaml, os_remove, write_file, print, setRawResponse,
    getCurrentUser, user_item, getitem, contains, lift, bind, ret, raise, gets,
    modify in *;
  simpl in *.

Lemma bind_run {A B} (c : M A) (k : A → M B) (w : world) :
  bind c k w = match c w with
               | (Ok a, w') => k a w'
               | (Err e, w') => (Err e, w')
               end.
Proof. reflexivity. Qed.

Section Pipeline.
Context (E : Engine).

Local Ltac stops T :=
  right;
  match goal with
  | stop : ∀ e w', _ |- _ => eapply stop; [T | intros ? Hu; T | done | done]
  end.
Implicit Types (graph : json) (w : world) (r : staging E).

Lemma staged_fs (p t : string) w :
  with_fs (delete p) (with_fs (insert p t) (with_fs (insert p "") w))
  = with_fs (delete p) w.
Proof.
  unfold with_fs; simpl. f_equal.
  by rewrite !delete_insert_eq.
Qed.

Lemma unstaged_gone r w : fs (unstaged r w) !! st_path r = None.
Proof. apply lookup_delete_eq. Qed.

(** Where a call that reaches [s.validate] ends. *)
Lemma convertGraph_staged graph w r :
  staged graph w r →
  convertGraph E graph w =
    match validate (st_schema r) (st_norm r) with
    | Some e => (Err (invalid_graph e), with_call (Print e) (unstaged r w))
    | None => lift (pyaml_dump E (st_cis r)) (with_raw true (unstaged r w))
    end.
Proof.
  intros (m & content & converted & -> & Hc & Hf & Hcis & Hp & Hd & Hprep & Hs & Hn).
  run. rewrite Hc, Hf. simpl. rewrite <- Hcis, <- Hp, Hd. simpl.
  rewrite insert_insert_eq, Hprep. simpl. rewrite lookup_insert_eq, Hs, Hn.
  unfold unstaged. rewrite <- (staged_fs (st_path r) (st_text r) w).
  by destruct (validate _ _).
Qed.

Lemma executeGraph_staged graph w r u :
  staged graph w r → session w = Some u →
  executeGraph E graph w =
    match validate (st_schema r) (st_norm r) with
    | Some e => (Err (invalid_graph e), with_call (Print e) (unstaged r w))
    | None => (yaml_graph ← lift (pyaml_dump E (st_cis r));
               call_execGraph E yaml_graph (login u)) (with_raw true (unstaged r w))
    end.
Proof.
  intros (m & content & converted & -> & Hc & Hf & Hcis & Hp & Hd & Hprep & Hs & Hn) Hu.
  run. rewrite Hc, Hf. simpl. rewrite Hu. simpl. rewrite <- Hcis, <- Hp, Hd. simpl.
  rewrite insert_insert_eq, Hprep. simpl. rewrite lookup_insert_eq, Hs, Hn.
  unfold unstaged. rewrite <- (staged_fs (st_path r) (st_text r) w).
  by destruct (validate _ _).
Qed.

(** A call that does not get as far as [s.validate] ends in an exception
    that is not the framework's, having printed and dispatched nothing;
    and execute, for a user who is logged in, ends as convert does. *)
Lemma convertGraph_cases graph w :
  (∃ r, staged graph w r) ∨
  (∃ e w', convertGraph E graph w = (Err e, w') ∧ framework_error e = false
           ∧ calls w' = calls w
           ∧ (is_Some (session w) → executeGraph E graph w = (Err e, w'))).
Proof.
  destruct graph as [| | | | |m]; try (right; by eexists _, _).
  destruct (m !! "content") as [content|] eqn:Hc;
    [|right; run; rewrite Hc; by eexists _, _].
  destruct (fbpToCis E content) as [x|converted] eqn:Hf;
    [right; run; rewrite Hc, Hf; by eexists _, _|].
  assert (∀ e w',
    convertGraph E (JObj m) w = (Err e, w') →
    (∀ u, session w = Some u → executeGraph E (JObj m) w = (Err e, w')) →
    framework_error e = false → calls w' = calls w →
    ∃ e w', convertGraph E (JObj m) w = (Err e, w') ∧ framework_error e = false
            ∧ calls w' = calls w
            ∧ (is_Some (session w) → executeGraph E (JObj m) w = (Err e, w')))
    as stop.
  { intros e w' ? Hx ? ?. exists e, w'. split_and!; [done..|]. intros [u Hu]. eauto. }
  destruct (safe_dump E (as_str E converted)) as [x|text] eqn:Hd.
  { stops ltac:(
      run; rewrite Hc, Hf; simpl; rewrite ?Hu; simpl; rewrite Hd; done). }
  destruct (prep_yaml E (mktemp E (fs w)) (<[mktemp E (fs w) := text]> (fs w)))
    as [x|prep] eqn:Hprep.
  { stops ltac:(
      run; rewrite Hc, Hf; simpl; rewrite ?Hu; simpl; rewrite Hd; simpl;
      rewrite insert_insert_eq, Hprep; done). }
  destruct (get_schema E) as [x|s] eqn:Hs.
  { stops ltac:(
      run; rewrite Hc, Hf; simpl; rewrite ?Hu; simpl; rewrite Hd; simpl;
      rewrite insert_insert_eq, Hprep; simpl; rewrite lookup_insert_eq, Hs; done). }
  destruct (normalize s prep) as [x|norm] eqn:Hn.
  { stops ltac:(
      run; rewrite Hc, Hf; simpl; rewrite ?Hu; simpl; rewrite Hd; simpl;
      rewrite insert_insert_eq, Hprep; simpl; rewrite lookup_insert_eq, Hs, Hn;
      done). }
  left. exists (Staging (as_str E converted) (mktemp E (fs w)) text prep s norm).
  by exists m, content, converted.
Qed.

(** Without a user, execute stops at [user['login']]. *)
Lemma executeGraph_anonymous graph w r :
  staged graph w r → session w = None →
  executeGraph E graph w = (Err TypeError, w).
Proof.
  intros (m & content & converted & -> & Hc & Hf & _) Hu.
  run. by rewrite Hc, Hf; simpl; rewrite Hu.
Qed.

Lemma executeGraph_cases graph w :
  (∃ r u, staged graph w r ∧ session w = Some u) ∨
  (∃ e w', executeGraph E graph w = (Err e, w') ∧ framework_error e = false
           ∧ calls w' = calls w).
Proof.
  destruct (session w) as [u|] eqn:Hu.
  - destruct (convertGraph_cases graph w) as [[r Hr]|(e & w' & _ & He & Hw & Hx)].
    + left. by exists r, u.
    + right. exists e, w'. rewrite Hu in Hx. split_and!; [|done..]. by apply Hx.
  - right. destruct (convertGraph_cases graph w) as [[r Hr]|(e & w' & Hc & He & Hw & _)].
    + exists TypeError, w. by rewrite (executeGraph_anonymous _ _ _ Hr Hu).
    + revert Hc. destruct graph as [| | | | |m]; try by eexists _, _.
      run. destruct (m !! "content") as [content|]; [|by eexists _, _].
      destruct (fbpToCis E content); [by eexists _, _|].
      simpl. rewrite Hu. by eexists _, _.
Qed.

(** Execute is convert followed by the dispatch. *)
Lemma executeGraph_convertGraph graph w u :
  session w = Some u →
  executeGraph E graph w =
    (yaml_graph ← convertGraph E graph; call_execGraph E yaml_graph (login u)) w.
Proof.
  intros Hu. rewrite (bind_run (convertGraph E graph)).
  destruct (convertGraph_cases graph w) as [[r Hr]|(e & w' & He & _ & _ & Hx)].
  - rewrite (executeGraph_staged _ _ _ _ Hr Hu), (convertGraph_staged _ _ _ Hr).
    destruct (validate _ _); [done|].
    unfold lift, bind. by destruct (pyaml_dump _ _).
  - rewrite He. apply Hx. by rewrite Hu.
Qed.

(** Convert hands nothing to the dispatcher. *)
Lemma convertGraph_no_dispatch graph w yaml_graph username :
  Dispatch yaml_graph username ∈ calls (convertGraph E graph w).2 →
  Dispatch yaml_graph username ∈ calls w.
Proof.
  destruct (convertGraph_cases graph w) as [[r Hr]|(e & w' & He & _ & Hw & _)];
    [|by rewrite He; simpl; rewrite Hw].
  rewrite (convertGraph_staged _ _ _ Hr).
  destruct (validate _ _) as [x|].
  - simpl. intros [?|Hin]%elem_of_app; [done|].
    by apply list_elem_of_singleton in Hin.
  - unfold lift. by destruct (pyaml_dump _ _).
Qed.
End Pipeline.

(** ** The sample installation at work *)

Lemma sample_accepted who :
  accepted Sample.valid_body (Sample.visit who) Sample.valid_run.
Proof.
  split; [|reflexivity].
  exists (<["content" := JStr "models: []"]> ∅), (JStr "models: []"), "models: []".
  split_and!; reflexivity.
Qed.

Lemma sample_rejected who :
  rejected Sample.invalid_body (Sample.visit who) Sample.invalid_run
    "'models' is a required property".
Proof.
  split; [|reflexivity].
  exists (<["content" := JStr "connections: []"]> ∅), (JStr "connections: []"),
    "connections: []".
  split_and!; reflexivity.
Qed.

Lemma sample_roundtrip : dump_load_roundtrip Sample.engine.
Proof. intros d text [= ->]. reflexivity. Qed.

(** ** Convert returns the converted graph *)

(** C1 (as the code has it). For every body whose content converts and
    passes schema validation, convertGraph returns [pyaml.dump] of the
    conversion output: the text re-parses to the converted graph, the
    normalized document having served for validation only. *)
Theorem convertGraph_returns_converted_graph (E : Engine) graph w (r : staging E) text :
  accepted graph w r →
  pyaml_dump E (st_cis r) = inr text →
  dump_load_roundtrip E →
  convertGraph E graph w = (Ok text, with_raw true (unstaged r w)) ∧
  yaml_load E text = Some (st_cis r).
Proof.
  intros [Hr Hv] Hdump Hload. split; [|by apply Hload].
  rewrite (convertGraph_staged _ _ _ _ Hr), Hv. unfold lift. by rewrite Hdump.
Qed.

Lemma convertGraph_returns_converted_graph_witness :
  accepted Sample.valid_body (Sample.visit None) Sample.valid_run ∧
  convertGraph Sample.engine Sample.valid_body (Sample.visit None)
    = (Ok "models: []", with_raw true (unstaged Sample.valid_run (Sample.visit None))) ∧
  yaml_load Sample.engine "models: []" = Some "models: []".
Proof.
  split; [apply sample_accepted|].
  apply (convertGraph_returns_converted_graph Sample.engine Sample.valid_body
           (Sample.visit None) Sample.valid_run "models: []").
  - apply sample_accepted.
  - reflexivity.
  - apply sample_roundtrip.
Defined.

(** C1 (as worded) fails: on the sample installation the text returned
    re-parses to the converted graph, which lacks the default that
    normalization added. *)
Lemma convertGraph_not_normalized_form :
  ¬ returns_normalized_form Sample.engine Sample.valid_body (Sample.visit None).
Proof.
  intros claim.
  destruct (claim Sample.valid_run (sample_accepted None)) as (text & w' & Hrun & Hload).
  vm_compute in Hrun. injection Hrun as <- _.
  vm_compute in Hload. discriminate Hload.
Qed.

(** ** The temporary file *)

(** C3 (as the code has it). Once a convertGraph or executeGraph call has
    staged the graph, the temporary file is removed before the schema is
    consulted: when the validator raises, the 400 error leaves a filesystem
    without the file, and so does every other way the call can end from
    there. *)
Theorem tempfile_removed_before_validation (E : Engine) graph w (r : staging E) :
  staged graph w r →
  (∀ e, validate (st_schema r) (st_norm r) = Some e →
     convertGraph E graph w = (Err (invalid_graph e), with_call (Print e) (unstaged r w)) ∧
     (is_Some (session w) →
      executeGraph E graph w = (Err (invalid_graph e), with_call (Print e) (unstaged r w)))) ∧
  fs (convertGraph E graph w).2 = delete (st_path r) (fs w) ∧
  (is_Some (session w) → fs (executeGraph E graph w).2 = delete (st_path r) (fs w)) ∧
  delete (st_path r) (fs w) !! st_path r = None.
Proof.
  intros Hr. split_and!.
  - intros e He. split; [|intros [u Hu]].
    + by rewrite (convertGraph_staged _ _ _ _ Hr), He.
    + by rewrite (executeGraph_staged _ _ _ _ _ Hr Hu), He.
  - rewrite (convertGraph_staged _ _ _ _ Hr).
    destruct (validate _ _); [done|].
    unfold lift. by destruct (pyaml_dump _ _).
  - intros [u Hu]. rewrite (executeGraph_staged _ _ _ _ _ Hr Hu).
    destruct (validate _ _); [done|].
    unfold lift, call_execGraph, bind, modify.
    destruct (pyaml_dump _ _) as [x|yaml]; [done|]. simpl.
    by destruct (execGraph _ _ _).
  - apply lookup_delete_eq.
Qed.

Lemma tempfile_removed_before_validation_witness :
  staged Sample.invalid_body (Sample.visit None) Sample.invalid_run ∧
  fs (convertGraph Sample.engine Sample.invalid_body (Sample.visit None)).2
  = delete "/tmp/cisq1w2e3yml" ∅.
Proof.
  split; [exact (proj1 (sample_rejected None))|].
  exact (proj1 (proj2 (tempfile_removed_before_validation Sample.engine
           Sample.invalid_body (Sample.visit None) Sample.invalid_run
           (proj1 (sample_rejected None))))).
Defined.

(** C3 (as worded) fails: the validator raises on the sample's invalid
    graph, and the file is not there afterwards. *)
Lemma tempfile_not_orphaned :
  ¬ leaves_file_orphaned Sample.engine Sample.invalid_body (Sample.visit None).
Proof.
  intros claim.
  destruct (claim Sample.invalid_run _ (sample_rejected None)) as [text Hfile].
  vm_compute in Hfile. discriminate Hfile.
Qed.

(** The file does stay behind when [prep_yaml] raises: nothing removes it
    on that path. *)
Lemma tempfile_left_when_prep_raises (E : Engine) m content converted text x w :
  m !! "content" = Some content →
  fbpToCis E content = inr converted →
  safe_dump E (as_str E converted) = inr text →
  prep_yaml E (mktemp E (fs w)) (<[mktemp E (fs w) := text]> (fs w)) = inl x →
  ∃ w', convertGraph E (JObj m) w = (Err (Raised x), w') ∧
        fs w' !! mktemp E (fs w) = Some text.
Proof.
  intros Hc Hf Hd Hprep. eexists. split.
  - run. rewrite Hc, Hf. simpl. rewrite Hd. simpl.
    by rewrite insert_insert_eq, Hprep.
  - simpl. apply lookup_insert_eq.
Qed.

(** ** Execute validates as convert does *)

(** C5. For a logged-in user, executeGraph is convertGraph followed by the
    dispatch of its text under the user's login.  Whenever convert fails,
    in particular when the validator rejects the graph, execute fails too
    (in the same way, for a logged-in user) and no call to execGraph is
    recorded. *)
Theorem executeGraph_validates_as_convertGraph (E : Engine) graph w :
  (∀ u, session w = Some u →
     executeGraph E graph w =
       (yaml_graph ← convertGraph E graph; call_execGraph E yaml_graph (login u)) w) ∧
  (∀ e w', convertGraph E graph w = (Err e, w') →
     ∃ e2 w2,
       executeGraph E graph w = (Err e2, w2) ∧
       (is_Some (session w) → e2 = e ∧ w2 = w') ∧
       ∀ yaml_graph username,
         Dispatch yaml_graph username ∈ calls w2 → Dispatch yaml_graph username ∈ calls w) ∧
  (∀ (r : staging E) e,
     rejected graph w r e → is_Some (session w) →
     executeGraph E graph w = (Err (invalid_graph e), with_call (Print e) (unstaged r w))).
Proof.
  split_and!.
  - apply executeGraph_convertGraph.
  - intros e w' He. destruct (session w) as [u|] eqn:Hu.
    + exists e, w'. split_and!; [|done|].
      * by rewrite (executeGraph_convertGraph E graph w u Hu), bind_run, He.
      * intros y n Hin. apply (convertGraph_no_dispatch E graph). by rewrite He.
    + destruct (executeGraph_cases E graph w)
        as [(r & u & _ & Hsome)|(e2 & w2 & He2 & _ & Hcalls)].
      * by rewrite Hu in Hsome.
      * exists e2, w2. split_and!; [done|by intros [? ?]|by rewrite Hcalls].
  - intros r e [Hr He] [u Hu]. by rewrite (executeGraph_staged _ _ _ _ _ Hr Hu), He.
Qed.

Lemma executeGraph_validates_as_convertGraph_witness :
  rejected Sample.invalid_body (Sample.visit (Some Sample.alice)) Sample.invalid_run
    "'models' is a required property" ∧
  executeGraph Sample.engine Sample.invalid_body (Sample.visit (Some Sample.alice))
  = (Err (invalid_graph "'models' is a required property"),
     with_call (Print "'models' is a required property")
       (unstaged Sample.invalid_run (Sample.visit (Some Sample.alice)))).
Proof.
  split; [apply sample_rejected|].
  apply (proj2 (proj2 (executeGraph_validates_as_convertGraph Sample.engine
           Sample.invalid_body (Sample.visit (Some Sample.alice))))).
  - apply sample_rejected.
  - by exists Sample.alice.
Defined.

(** ** The validation error *)

(** C8. When the schema validator rejects the normalized graph with [e],
    convertGraph and executeGraph raise RestException('Invalid graph %s',
    400, e); and a RestException leaves either handler only then, with that
    message, that code and the validator's exception as its extra. *)
Theorem validation_error_iff_rejected (E : Engine) graph w :
  (∀ (r : staging E) e, rejected graph w r e →
     (convertGraph E graph w).1 = Err (invalid_graph e) ∧
     (is_Some (session w) → (executeGraph E graph w).1 = Err (invalid_graph e))) ∧
  (∀ message code extra w',
     convertGraph E graph w = (Err (RestException message code extra), w') ∨
     executeGraph E graph w = (Err (RestException message code extra), w') →
     ∃ (r : staging E) e, rejected graph w r e ∧
        RestException message code extra = invalid_graph e ∧ code = 400%Z).
Proof.
  split.
  - intros r e [Hr He]. split; [|intros [u Hu]].
    + by rewrite (convertGraph_staged _ _ _ _ Hr), He.
    + by rewrite (executeGraph_staged _ _ _ _ _ Hr Hu), He.
  - intros message code extra w' [Hraised|Hraised].
    + destruct (convertGraph_cases E graph w) as [[r Hr]|(e & w2 & He & Hplain & _)].
      * rewrite (convertGraph_staged _ _ _ _ Hr) in Hraised.
        destruct (validate _ _) as [e|] eqn:Hv.
        -- injection Hraised as <- <- <- _. by exists r, e.
        -- unfold lift in Hraised. by destruct (pyaml_dump _ _).
      * rewrite Hraised in He. by injection He as <-.
    + destruct (executeGraph_cases E graph w)
        as [(r & u & Hr & Hu)|(e & w2 & He & Hplain & _)].
      * rewrite (executeGraph_staged _ _ _ _ _ Hr Hu) in Hraised.
        destruct (validate _ _) as [e|] eqn:Hv.
        -- injection Hraised as <- <- <- _. by exists r, e.
        -- revert Hraised. unfold lift, call_execGraph, bind, modify.
           destruct (pyaml_dump _ _); [done|]. simpl.
           by destruct (execGraph _ _ _).
      * rewrite Hraised in He. by injection He as <-.
Qed.

Lemma validation_error_iff_rejected_witness :
  rejected Sample.invalid_body (Sample.visit None) Sample.invalid_run
    "'models' is a required property" ∧
  (convertGraph Sample.engine Sample.invalid_body (Sample.visit None)).1
    = Err (invalid_graph "'models' is a required property").
Proof.
  split; [apply sample_rejected|].
  exact (proj1 (proj1 (validation_error_iff_rejected Sample.engine Sample.invalid_body
           (Sample.visit None)) Sample.invalid_run _ (sample_rejected None))).
Defined.

(** ** Update *)

Ltac run_update :=
  unfold updateGraph, createGraph, model_createGraph, model_updateGraph, model_save;
  run.

Lemma contains_key (m : doc) (key : string) (v : json) (w : world) :
  m !! key = Some v → contains key (JObj m) w = (Ok true, w).
Proof. intros H. unfold contains, ret. by rewrite H. Qed.

Lemma contains_no_key (m : doc) (key : string) (w : world) :
  m !! key = None → contains key (JObj m) w = (Ok false, w).
Proof. intros H. unfold contains, ret. by rewrite H. Qed.

(** What saving a record stores and gives back. *)
Lemma model_save_saved (S : Storage) (g : doc) (w : world) :
  ∃ g' id,
    model_save S g w = (Ok g', with_db (insert id g') w) ∧
    g' !! "_id" = Some (JStr id) ∧
    ∀ key, key ≠ "_id" → g' !! key = g !! key.
Proof.
  unfold model_save. run.
  destruct (g !! "_id") as [[| | |id| |]|] eqn:Hid; simpl;
    try (eexists _, _; split_and!;
         [done|apply lookup_insert_eq|by intros key ?; rewrite lookup_insert_ne]).
  by exists g, id.
Qed.

(** What an accepted update hands to the storage model and gets back. *)
Lemma model_updateGraph_saved (S : Storage) (g : doc) (w : world) :
  ∃ g' w' id,
    model_updateGraph S g w = (Ok g', w') ∧
    g' !! "_id" = Some (JStr id) ∧ db w' !! id = Some g' ∧
    calls w' = (calls w ++ [Persist g])%list ∧
    g' !! "updated" = Some (utcnow S) ∧
    ∀ key, key ≠ "_id" → key ≠ "updated" → g' !! key = g !! key.
Proof.
  destruct (model_save_saved S (<["updated" := utcnow S]> g) (with_call (Persist g) w))
    as (g' & id & Hsave & Hid & Hkeys).
  exists g', (with_db (insert id g') (with_call (Persist g) w)), id.
  split_and!; [exact Hsave|done|apply lookup_insert_eq|done| |].
  - rewrite Hkeys by done. apply lookup_insert_eq.
  - intros key ? ?. rewrite Hkeys by done. by rewrite lookup_insert_ne.
Qed.

(** A body that is not an object cannot be subscripted with a name. *)
Lemma updateGraph_body_not_object (S : Storage) (graphObj : doc) (graph : json) w :
  (∀ m, graph ≠ JObj m) →
  updateGraph S graphObj graph w = (Err TypeError, w).
Proof.
  intros Hbody. run_update. destruct graph as [| | | | |m]; try done.
  by destruct (Hbody m).
Qed.

(** C9. A body that lacks [name] or [content] makes updateGraph raise
    KeyError, which is not a framework error and is answered with 500,
    before the admin check and with the world as it was: nothing is
    persisted. *)
Theorem updateGraph_requires_name_and_content (S : Storage) (graphObj m : doc) w :
  m !! "name" = None ∨ m !! "content" = None →
  ∃ key, updateGraph S graphObj (JObj m) w = (Err (KeyError key), w) ∧
         (key = "name" ∨ key = "content") ∧
         framework_error (KeyError key) = false ∧
         ∀ logged_in, status logged_in (KeyError key) = 500%Z.
Proof.
  intros Hmissing. run_update.
  destruct (m !! "name") as [name|] eqn:Hname.
  - destruct Hmissing as [?|Hcontent]; [done|]. rewrite Hcontent.
    exists "content". split_and!; [done|by right|done|done].
  - exists "name". split_and!; [done|by left|done|done].
Qed.

Lemma updateGraph_requires_name_and_content_witness :
  ∃ key, updateGraph Sample.storage Sample.plant (Sample.only_public (JBool true))
           (Sample.visit (Some Sample.alice))
         = (Err (KeyError key), Sample.visit (Some Sample.alice)) ∧
         (key = "name" ∨ key = "content") ∧
         framework_error (KeyError key) = false ∧
         ∀ logged_in, status logged_in (KeyError key) = 500%Z.
Proof.
  apply (updateGraph_requires_name_and_content Sample.storage Sample.plant
           (<["public" := JBool true]> ∅) (Sample.visit (Some Sample.alice))).
  left. reflexivity.
Defined.

(** C4 (as the code has it). A user who is not an administrator and sends
    name, content and a true [public] is refused with 403; the world is
    as it was, so the stored record is not modified and the storage model
    is not called. *)
Theorem updateGraph_refuses_public_to_non_admin (S : Storage) (graphObj m : doc) w u
    name content public :
  session w = Some u → admin u = false →
  m !! "name" = Some name → m !! "content" = Some content →
  m !! "public" = Some public → truthy public = true →
  updateGraph S graphObj (JObj m) w = (Err not_authorized, w) ∧
  status true not_authorized = 403%Z ∧
  refused_untouched S graphObj (JObj m) w.
Proof.
  intros Hu Hadmin Hname Hcontent Hpublic Htrue.
  assert (updateGraph S graphObj (JObj m) w = (Err not_authorized, w)) as Hrun.
  { run_update. rewrite Hu, Hname, Hcontent, Hpublic. simpl.
    by rewrite Htrue, Hadmin. }
  split_and!; [done|done|]. by exists "Not authorized to create public graphs", None, w.
Qed.

Lemma updateGraph_refuses_public_to_non_admin_witness :
  updateGraph Sample.storage Sample.plant (Sample.rename (Some (JBool true)))
    (Sample.visit (Some Sample.alice))
  = (Err not_authorized, Sample.visit (Some Sample.alice)).
Proof.
  apply (updateGraph_refuses_public_to_non_admin Sample.storage Sample.plant
           (<["public" := JBool true]>
              (<["name" := JStr "Plant"]> (<["content" := JStr "models: []"]> ∅)))
           (Sample.visit (Some Sample.alice)) Sample.alice
           (JStr "Plant") (JStr "models: []") (JBool true));
    reflexivity.
Defined.

(** C4 (as worded) fails: with [public] true and no [name], the answer is
    KeyError, not 403. *)
Lemma updateGraph_public_without_name_not_403 :
  ¬ refused_untouched Sample.storage Sample.plant (Sample.only_public (JBool true))
      (Sample.visit (Some Sample.alice)).
Proof.
  intros (message & extra & w' & Hrun & _).
  vm_compute in Hrun. discriminate Hrun.
Qed.

(** An update either raises with the world as it was, or calls the
    storage model with a record that differs from the loaded one in name,
    content and public at most. *)
Lemma updateGraph_outcome (S : Storage) (graphObj : doc) (graph : json) w :
  (∃ e, updateGraph S graphObj graph w = (Err e, w)) ∨
  (∃ g, updateGraph S graphObj graph w = model_updateGraph S g w ∧
        ∀ key, key ≠ "name" → key ≠ "content" → key ≠ "public" →
               g !! key = graphObj !! key).
Proof.
  unfold updateGraph. run.
  destruct graph as [| | | | |m]; try (left; by eexists).
  destruct (m !! "name") as [name|]; [|left; by eexists].
  destruct (m !! "content") as [content|]; [|left; by eexists].
  destruct (m !! "public") as [public|]; simpl.
  - assert (∀ key, key ≠ "name" → key ≠ "content" → key ≠ "public" →
              (<["public" := public]>
                 (<["content" := content]> (<["name" := name]> graphObj))) !! key
              = graphObj !! key) as Hframe.
    { intros key ? ? ?. by rewrite !lookup_insert_ne. }
    destruct (truthy public); [|right; by eexists].
    destruct (session w) as [u|]; simpl; [|left; by eexists].
    destruct (admin u); simpl; [right|left]; by eexists.
  - right. eexists. split; [done|].
    intros key ? ? ?. by rewrite !lookup_insert_ne.
Qed.

(** C6 (as the code has it). When an administrator sends name, content
    and [public] true, the record handed to the storage model, stored
    under its identifier and returned, has [public] true. *)
Theorem updateGraph_admin_persists_public (S : Storage) (graphObj m : doc) w u
    name content :
  session w = Some u → admin u = true →
  m !! "name" = Some name → m !! "content" = Some content →
  m !! "public" = Some (JBool true) →
  ∃ g w' id,
    updateGraph S graphObj (JObj m) w = (Ok g, w') ∧
    g !! "_id" = Some (JStr id) ∧
    g !! "public" = Some (JBool true) ∧
    persists_public S graphObj (JObj m) w id (JBool true).
Proof.
  intros Hu Hadmin Hname Hcontent Hpublic.
  assert (updateGraph S graphObj (JObj m) w
          = model_updateGraph S
              (<["public" := JBool true]>
                 (<["content" := content]> (<["name" := name]> graphObj))) w) as Hrun.
  { unfold updateGraph. run. rewrite Hu, Hname, Hcontent, Hpublic. simpl.
    by rewrite Hadmin. }
  destruct (model_updateGraph_saved S
    (<["public" := JBool true]> (<["content" := content]> (<["name" := name]> graphObj)))
    w) as (g & w' & id & Hsave & Hid & Hdb & _ & _ & Hkeys).
  assert (g !! "public" = Some (JBool true)) as Hg.
  { rewrite Hkeys; [apply lookup_insert_eq|done..]. }
  exists g, w', id. split_and!; [by rewrite Hrun|done|done|].
  unfold persists_public, stored_field. by rewrite Hrun, Hsave; simpl; rewrite Hdb.
Qed.

Lemma updateGraph_admin_persists_public_witness :
  ∃ g w' id,
    updateGraph Sample.storage Sample.plant (Sample.rename (Some (JBool true)))
      (Sample.visit (Some Sample.root)) = (Ok g, w') ∧
    g !! "_id" = Some (JStr id) ∧
    g !! "public" = Some (JBool true) ∧
    persists_public Sample.storage Sample.plant (Sample.rename (Some (JBool true)))
      (Sample.visit (Some Sample.root)) id (JBool true).
Proof.
  apply (updateGraph_admin_persists_public Sample.storage Sample.plant
           (<["public" := JBool true]>
              (<["name" := JStr "Plant"]> (<["content" := JStr "models: []"]> ∅)))
           (Sample.visit (Some Sample.root)) Sample.root
           (JStr "Plant") (JStr "models: []"));
    reflexivity.
Defined.

(** C6 (as worded) fails: an administrator's body with [public] true and
    no [name] ends in KeyError, and the stored record has no [public]. *)
Lemma updateGraph_admin_without_name_not_persisted :
  ¬ persists_public Sample.storage Sample.plant (Sample.only_public (JBool true))
      (Sample.visit (Some Sample.root)) "g1" (JBool true).
Proof.
  unfold persists_public. intros Hstored.
  vm_compute in Hstored. discriminate Hstored.
Qed.

(** C10 (as the code has it). The admin check is reached only for a truthy
    [public]: when the body carries name, content and a falsy [public],
    that value is written to the record, stored and returned, whoever the
    acting user is. *)
Theorem updateGraph_applies_falsy_public (S : Storage) (graphObj m : doc) w
    name content public :
  m !! "name" = Some name → m !! "content" = Some content →
  m !! "public" = Some public → truthy public = false →
  ∃ g w' id,
    updateGraph S graphObj (JObj m) w = (Ok g, w') ∧
    g !! "_id" = Some (JStr id) ∧
    g !! "public" = Some public ∧
    persists_public S graphObj (JObj m) w id public.
Proof.
  intros Hname Hcontent Hpublic Hfalsy.
  assert (updateGraph S graphObj (JObj m) w
          = model_updateGraph S
              (<["public" := public]> (<["content" := content]> (<["name" := name]> graphObj)))
              w) as Hrun.
  { unfold updateGraph. run. rewrite Hname, Hcontent, Hpublic. simpl.
    by rewrite Hfalsy. }
  destruct (model_updateGraph_saved S
    (<["public" := public]> (<["content" := content]> (<["name" := name]> graphObj)))
    w) as (g & w' & id & Hsave & Hid & Hdb & _ & _ & Hkeys).
  assert (g !! "public" = Some public) as Hg.
  { rewrite Hkeys; [apply lookup_insert_eq|done..]. }
  exists g, w', id. split_and!; [by rewrite Hrun|done|done|].
  unfold persists_public, stored_field. by rewrite Hrun, Hsave; simpl; rewrite Hdb.
Qed.

Lemma updateGraph_applies_falsy_public_witness :
  ∃ g w' id,
    updateGraph Sample.storage Sample.shared (Sample.rename (Some (JBool false)))
      (Sample.visit (Some Sample.alice)) = (Ok g, w') ∧
    g !! "_id" = Some (JStr id) ∧
    g !! "public" = Some (JBool false) ∧
    persists_public Sample.storage Sample.shared (Sample.rename (Some (JBool false)))
      (Sample.visit (Some Sample.alice)) id (JBool false).
Proof.
  apply (updateGraph_applies_falsy_public Sample.storage Sample.shared
           (<["public" := JBool false]>
              (<["name" := JStr "Plant"]> (<["content" := JStr "models: []"]> ∅)))
           (Sample.visit (Some Sample.alice))
           (JStr "Plant") (JStr "models: []") (JBool false));
    reflexivity.
Defined.

(** C10 (as worded) fails: a body with [public] false and no [name] ends
    in KeyError, and the stored record stays public. *)
Lemma updateGraph_falsy_public_without_name_not_applied :
  ¬ persists_public Sample.storage Sample.shared (Sample.only_public (JBool false))
      (Sample.visit (Some Sample.alice)) "g2" (JBool false).
Proof.
  unfold persists_public. intros Hstored.
  vm_compute in Hstored. discriminate Hstored.
Qed.

(** ** Who created a graph *)

Lemma model_updateGraph_known (S : Storage) (g : doc) (w : world) (id : string) :
  g !! "_id" = Some (JStr id) →
  model_updateGraph S g w
  = (Ok (<["updated" := utcnow S]> g),
     with_db (insert id (<["updated" := utcnow S]> g)) (with_call (Persist g) w)).
Proof.
  intros Hid. run_update. rewrite lookup_insert_ne by done. by rewrite Hid.
Qed.

(** C7 (as the code has it). A graph created by a logged-in user carries
    that user's identifier as [creatorId].  An update hands the storage
    model the loaded record with name, content and (conditionally) public
    written and nothing else; of the stored records, every field other
    than name, content, public and the [updated] stamp, [creatorId] among
    them, is afterwards what it was, and an update that is persisted
    leaves [updated] at the time of the update. *)
Theorem creatorId_set_on_create_and_kept_on_update (S : Storage) :
  (∀ (m : doc) w u,
     session w = Some u →
     ∃ g w' id,
       createGraph S (JObj m) w = (Ok g, w') ∧
       g !! "creatorId" = Some (JStr (u_id u)) ∧
       g !! "_id" = Some (JStr id) ∧ db w' !! id = Some g) ∧
  (∀ (graphObj : doc) graph w g,
     Persist g ∈ calls (updateGraph S graphObj graph w).2 →
     Persist g ∈ calls w ∨
     ∀ key, key ≠ "name" → key ≠ "content" → key ≠ "public" →
            g !! key = graphObj !! key) ∧
  (∀ (graphObj : doc) graph w id,
     db w !! id = Some graphObj → graphObj !! "_id" = Some (JStr id) →
     (∀ id' key,
        key ≠ "name" → key ≠ "content" → key ≠ "public" → key ≠ "updated" →
        stored_field (updateGraph S graphObj graph w).2 id' key = stored_field w id' key) ∧
     stored_field (updateGraph S graphObj graph w).2 id "creatorId"
     = graphObj !! "creatorId" ∧
     (∀ g w', updateGraph S graphObj graph w = (Ok g, w') →
              stored_field w' id "updated" = Some (utcnow S))).
Proof.
  split_and!.
  - intros m w u Hu.
    set (obj := <["creatorId" := JStr (u_id u)]>
                  (<["updated" := utcnow S]> (<["created" := utcnow S]> (newRecord S m u)))).
    destruct (model_save_saved S obj (with_call (Persist obj) w))
      as (g & id & Hsave & Hid & Hkeys).
    exists g, (with_db (insert id g) (with_call (Persist obj) w)), id.
    split_and!; [|by rewrite Hkeys; [apply lookup_insert_eq|]|done|apply lookup_insert_eq].
    unfold createGraph, getCurrentUser, gets. rewrite bind_run, Hu. exact Hsave.
  - intros graphObj graph w g0.
    destruct (updateGraph_outcome S graphObj graph w) as [[e ->]|(g & -> & Hframe)];
      [by left|].
    destruct (model_updateGraph_saved S g w)
      as (g' & w' & id & -> & _ & _ & Hcalls & _ & _).
    simpl. rewrite Hcalls. intros [?|Hnew]%elem_of_app; [by left|].
    apply list_elem_of_singleton in Hnew as [= ->]. by right.
  - intros graphObj graph w id Hstored Hid.
    destruct (updateGraph_outcome S graphObj graph w) as [[e ->]|(g & -> & Hframe)].
    { split_and!; [done| |done]. unfold stored_field. simpl. by rewrite Hstored. }
    rewrite (model_updateGraph_known S g w id) by (by rewrite Hframe).
    unfold stored_field. simpl. split_and!.
    + intros id' key Hname Hcontent Hpublic Hupdated.
      destruct (decide (id' = id)) as [->|Hother].
      * rewrite !lookup_insert_eq, Hstored, lookup_insert_ne by done. by apply Hframe.
      * by rewrite lookup_insert_ne.
    + rewrite lookup_insert_eq, lookup_insert_ne by done. by apply Hframe.
    + intros g0 w0 [= <- <-]. simpl. by rewrite !lookup_insert_eq.
Qed.

Lemma creatorId_set_on_create_and_kept_on_update_witness :
  (∃ g w' id,
     createGraph Sample.storage (Sample.rename None) (Sample.visit (Some Sample.alice))
       = (Ok g, w') ∧
     g !! "creatorId" = Some (JStr "u1") ∧
     g !! "_id" = Some (JStr id) ∧ db w' !! id = Some g) ∧
  stored_field
    (updateGraph Sample.storage SampleSite.dated (Sample.rename None)
       (SampleSite.archive (Some Sample.root))).2 "g1" "creatorId"
  = Some (JStr "u0").
Proof.
  split.
  - apply (proj1 (creatorId_set_on_create_and_kept_on_update Sample.storage)
             (<["name" := JStr "Plant"]> (<["content" := JStr "models: []"]> ∅))
             (Sample.visit (Some Sample.alice)) Sample.alice).
    reflexivity.
  - exact (proj1 (proj2 (proj2 (proj2 (creatorId_set_on_create_and_kept_on_update
             Sample.storage)) SampleSite.dated (Sample.rename None)
             (SampleSite.archive (Some Sample.root)) "g1" eq_refl eq_refl))).
Defined.

(** C7 (as worded) fails: an update of the sample's dated graph is
    persisted, and the stored [updated], which is none of name, content
    and public, has moved from the day of creation to the time of the
    update. *)
Lemma update_moves_updated_stamp :
  ¬ leaves_other_fields Sample.storage SampleSite.dated (Sample.rename None)
      (SampleSite.archive (Some Sample.root)).
Proof.
  intros frame.
  specialize (frame "g1" "updated" ltac:(discriminate) ltac:(discriminate)
                ltac:(discriminate)).
  vm_compute in frame. discriminate frame.
Qed.

(** ** Reading a graph *)

(** The loader of [GET /graph/:id] is told to force the load: whoever
    asks, a record that exists is returned, through the model's filter. *)
Lemma GET_graph_id_found (S : Storage) (id : string) (g : doc) w :
  validObjectId S id = true → db w !! id = Some g →
  GET_graph_id S id w = (Ok (model_filter S g (session w)), w).
Proof.
  intros Hvalid Hfound.
  unfold GET_graph_id, access_public, filtermodel, modelParam, model_load, getGraph.
  run. by rewrite Hvalid, Hfound.
Qed.

Lemma GET_graph_id_absent (S : Storage) (id : string) w :
  validObjectId S id = true → db w !! id = None →
  GET_graph_id S id w
  = (Err (RestException ("Invalid graph id (" ++ id ++ ").") 400 None), w).
Proof.
  intros Hvalid Habsent.
  unfold GET_graph_id, access_public, filtermodel, modelParam, model_load, getGraph.
  run. by rewrite Hvalid, Habsent.
Qed.

(** The loader of [PUT /graph/:id] is given a level instead, and a user
    without it is turned away. *)
Lemma PUT_graph_id_denied (S : Storage) (id : string) (g : doc) (body : json) w u :
  session w = Some u → validObjectId S id = true → db w !! id = Some g →
  hasAccess S g (Some u) WRITE = false →
  PUT_graph_id S id body w
  = (Err (AccessException ("Write access denied for graph " ++ id)), w).
Proof.
  intros Hu Hvalid Hfound Hdenied.
  unfold PUT_graph_id, access_user, modelParam, model_load.
  run. rewrite Hu. simpl. by rewrite Hvalid, Hfound, Hu, Hdenied.
Qed.

(** C2 (the code departs from it). The sample's private graph, to which an
    anonymous caller has no read access, is returned to that caller by
    [GET /graph/:id] instead of a permission error. *)
Theorem getGraph_returns_record_without_read_access :
  hasAccess Sample.storage Sample.plant None READ = false ∧
  GET_graph_id Sample.storage "g1" (Sample.visit None)
  = (Ok Sample.plant, Sample.visit None).
Proof.
  split; [reflexivity|].
  by rewrite (GET_graph_id_found Sample.storage "g1" Sample.plant).
Qed.

(** * More of the resource *)

Ltac crunch := run; repeat (case_match; simplify_eq/=).

(** ** What the steps of a handler leave alone *)

Section Frame.
Context (R : world → world → Prop).
Context (Rrefl : ∀ w, R w w) (Rtrans : ∀ a b c, R a b → R b c → R a c).

Lemma preserves_ret {A} (a : A) : preserves R (ret a).
Proof. intros w. apply Rrefl. Qed.

Lemma preserves_raise {A} (e : exn) : preserves R (raise (A := A) e).
Proof. intros w. apply Rrefl. Qed.

Lemma preserves_gets {A} (f : world → A) : preserves R (gets f).
Proof. intros w. apply Rrefl. Qed.

Lemma preserves_lift {A} (r : string + A) : preserves R (lift r).
Proof. destruct r; intros w; apply Rrefl. Qed.

Lemma preserves_modify (f : world → world) :
  (∀ w, R w (f w)) → preserves R (modify f).
Proof. intros Hf w. apply Hf. Qed.

Lemma preserves_bind {A B} (c : M A) (k : A → M B) :
  preserves R c → (∀ a, preserves R (k a)) → preserves R (bind c k).
Proof.
  intros Hc Hk w. rewrite bind_run. specialize (Hc w).
  destruct (c w) as [[a|e] w1]; [|done].
  eapply Rtrans; [exact Hc|apply Hk].
Qed.

Lemma preserves_getitem graph key : preserves R (getitem graph key).
Proof.
  unfold getitem. destruct graph as [| | | | |m];
    try apply preserves_raise.
  destruct (m !! key); [apply preserves_ret|apply preserves_raise].
Qed.

Lemma preserves_user_item {A} (field : user → A) u : preserves R (user_item field u).
Proof. destruct u; [apply preserves_ret|apply preserves_raise]. Qed.
End Frame.

Lemma store_untouched_refl w : store_untouched w w.
Proof. by split_and!. Qed.

Lemma store_untouched_trans a b c :
  store_untouched a b → store_untouched b c → store_untouched a c.
Proof.
  intros (Hdb & Hs & Hp) (Hdb' & Hs' & Hp'). split_and!; [congruence..|eauto].
Qed.

Lemma store_untouched_files f w : store_untouched w (with_fs f w).
Proof. by split_and!. Qed.

Lemma store_untouched_raw b w : store_untouched w (with_raw b w).
Proof. by split_and!. Qed.

Lemma store_untouched_print text w : store_untouched w (with_call (Print text) w).
Proof.
  split_and!; [done..|]. simpl. intros g [?|Hin]%elem_of_app; [done|].
  by apply list_elem_of_singleton in Hin.
Qed.

Lemma store_untouched_dispatch yaml_graph username w :
  store_untouched w (with_call (Dispatch yaml_graph username) w).
Proof.
  split_and!; [done..|]. simpl. intros g [?|Hin]%elem_of_app; [done|].
  by apply list_elem_of_singleton in Hin.
Qed.

Lemma store_untouched_os_remove path : preserves store_untouched (os_remove path).
Proof.
  intros w. unfold os_remove. destruct (fs w !! path); simpl;
    [apply store_untouched_files|apply store_untouched_refl].
Qed.

Ltac frame :=
  repeat first
    [ apply (preserves_bind store_untouched store_untouched_trans); [|intros ?]
    | apply (preserves_ret store_untouched store_untouched_refl)
    | apply (preserves_raise store_untouched store_untouched_refl)
    | apply (preserves_gets store_untouched store_untouched_refl)
    | apply (preserves_lift store_untouched store_untouched_refl)
    | apply (preserves_getitem store_untouched store_untouched_refl)
    | apply (preserves_user_item store_untouched store_untouched_refl)
    | apply store_untouched_os_remove
    | apply preserves_modify; intros ?;
        first [apply store_untouched_files | apply store_untouched_raw
              | apply store_untouched_print | apply store_untouched_dispatch]
    | case_match ].

(** X1. Converting and executing never touch the store: whatever the body
    and however the call ends, the stored graphs and the session are as
    they were and the storage model has been asked to save nothing. *)
Theorem pipeline_leaves_store_alone (E : Engine) graph :
  preserves store_untouched (convertGraph E graph) ∧
  preserves store_untouched (executeGraph E graph).
Proof.
  split.
  - unfold convertGraph, NamedTemporaryFile, yaml_safe_dump, read_prep_yaml,
      write_file, print, setRawResponse. frame.
  - unfold executeGraph, NamedTemporaryFile, yaml_safe_dump, read_prep_yaml,
      write_file, print, setRawResponse, call_execGraph, getCurrentUser. frame.
Qed.

(** X2. A body without [content] stops convertGraph and executeGraph at
    their first line: KeyError for an object that lacks the key, TypeError
    for a body that is not an object, a server error either way, with the
    world as it was (no temporary file has been created). *)
Theorem content_is_required (E : Engine) graph w :
  (∀ m, graph = JObj m → m !! "content" = None) →
  ∃ e, (e = KeyError "content" ∨ e = TypeError) ∧
       (e = TypeError ↔ ∀ m, graph ≠ JObj m) ∧
       convertGraph E graph w = (Err e, w) ∧
       executeGraph E graph w = (Err e, w) ∧
       framework_error e = false.
Proof.
  intros Hmissing. destruct graph as [| | | | |m];
    try (exists TypeError; split_and!; [by right|done|done..]).
  exists (KeyError "content"). run. rewrite (Hmissing m eq_refl).
  split_and!; [by left| |done..].
  split; [done|]. intros Hno. by destruct (Hno m).
Qed.

Lemma content_is_required_witness :
  ∃ e, (e = KeyError "content" ∨ e = TypeError) ∧
       (e = TypeError ↔ ∀ m, Sample.only_public JNull ≠ JObj m) ∧
       convertGraph Sample.engine (Sample.only_public JNull) (Sample.visit None)
         = (Err e, Sample.visit None) ∧
       executeGraph Sample.engine (Sample.only_public JNull) (Sample.visit None)
         = (Err e, Sample.visit None) ∧
       framework_error e = false.
Proof.
  apply (content_is_required Sample.engine (Sample.only_public JNull) (Sample.visit None)).
  intros m [= <-]. reflexivity.
Defined.

(** X3. Converting and executing touch no file other than the temporary
    one they name: every other path holds afterwards what it held before,
    however the call ends.  When that name was free and the call got as
    far as the schema, the filesystem is exactly what it was. *)
Theorem pipeline_touches_only_its_tempfile (E : Engine) graph w :
  files_untouched_but (mktemp E (fs w)) w (convertGraph E graph w).2 ∧
  files_untouched_but (mktemp E (fs w)) w (executeGraph E graph w).2 ∧
  (∀ r : staging E, staged graph w r → fs w !! mktemp E (fs w) = None →
     fs (convertGraph E graph w).2 = fs w ∧
     (is_Some (session w) → fs (executeGraph E graph w).2 = fs w)).
Proof.
  split_and!.
  - intros other Hother. crunch; by rewrite ?lookup_delete_ne, ?lookup_insert_ne.
  - intros other Hother. crunch; by rewrite ?lookup_delete_ne, ?lookup_insert_ne.
  - intros r Hr Hfree.
    assert (st_path r = mktemp E (fs w)) as Hpath by (by destruct Hr as (?&?&?&?&?&?&?&?&?)).
    assert (fs (unstaged r w) = fs w) as Hsame.
    { unfold unstaged. simpl. rewrite Hpath. by apply delete_id. }
    split; [|intros [u Hu]].
    + rewrite (convertGraph_staged _ _ _ _ Hr). destruct (validate _ _); [done|].
      unfold lift. by destruct (pyaml_dump _ _).
    + rewrite (executeGraph_staged _ _ _ _ _ Hr Hu). destruct (validate _ _); [done|].
      unfold lift, call_execGraph, bind, modify.
      destruct (pyaml_dump _ _); [done|]. simpl. by destruct (execGraph _ _ _).
Qed.

Lemma pipeline_touches_only_its_tempfile_witness :
  staged Sample.valid_body (Sample.visit None) Sample.valid_run ∧
  fs (convertGraph Sample.engine Sample.valid_body (Sample.visit None)).2 = ∅.
Proof.
  split; [exact (proj1 (sample_accepted None))|].
  exact (proj1 (proj2 (proj2 (pipeline_touches_only_its_tempfile Sample.engine
           Sample.valid_body (Sample.visit None))) Sample.valid_run
           (proj1 (sample_accepted None)) eq_refl)).
Defined.

(** X4. When the temporary file outlives a convertGraph call.  Once the
    content has been translated: if [safe_dump] raises, the file stays
    behind empty; if [prep_yaml] raises, it stays behind with the dumped
    text; otherwise it is gone, whatever happens later. *)
Theorem tempfile_outlives_call_when (E : Engine) (m : doc) content converted w :
  m !! "content" = Some content →
  fbpToCis E content = inr converted →
  let path := mktemp E (fs w) in
  let after := fs (convertGraph E (JObj m) w).2 in
  match safe_dump E (as_str E converted) with
  | inl _ => after !! path = Some ""
  | inr text =>
      match prep_yaml E path (<[path := text]> (fs w)) with
      | inl _ => after !! path = Some text
      | inr _ => after !! path = None
      end
  end.
Proof.
  intros Hc Hf path after. subst path after. run. rewrite Hc, Hf. simpl.
  destruct (safe_dump E (as_str E converted)) as [x|text]; simpl;
    [apply lookup_insert_eq|].
  rewrite insert_insert_eq.
  destruct (prep_yaml E _ _) as [x|prep]; simpl; [apply lookup_insert_eq|].
  rewrite lookup_insert_eq.
  repeat (case_match; simplify_eq/=); apply lookup_delete_eq.
Qed.

Lemma tempfile_outlives_call_when_witness :
  fs (convertGraph Sample.engine Sample.invalid_body (Sample.visit None)).2
    !! "/tmp/cisq1w2e3yml" = None.
Proof.
  exact (tempfile_outlives_call_when Sample.engine
           (<["content" := JStr "connections: []"]> ∅) (JStr "connections: []")
           "connections: []" (Sample.visit None) eq_refl eq_refl).
Defined.

(** X5. A job is dispatched by executeGraph only for a graph that passed
    validation, as the text [pyaml.dump] gave for the converted graph, and
    under the login of the user of the session; and for such a graph it is
    dispatched once, its answer or exception being the call's. *)
Theorem dispatch_only_validated_under_own_login (E : Engine) graph w :
  (∀ yaml_graph username,
     Dispatch yaml_graph username ∈ calls (executeGraph E graph w).2 →
     Dispatch yaml_graph username ∈ calls w ∨
     ∃ u (r : staging E),
       session w = Some u ∧ username = login u ∧ accepted graph w r ∧
       pyaml_dump E (st_cis r) = inr yaml_graph) ∧
  (∀ u (r : staging E) yaml_graph,
     session w = Some u → accepted graph w r →
     pyaml_dump E (st_cis r) = inr yaml_graph →
     executeGraph E graph w
     = (match execGraph E yaml_graph (login u) with
        | inr answer => Ok answer
        | inl text => Err (Raised text)
        end,
        with_call (Dispatch yaml_graph (login u)) (with_raw true (unstaged r w)))).
Proof.
  split.
  - intros y n Hin.
    destruct (executeGraph_cases E graph w) as [(r & u & Hr & Hu)|(e & w' & He & _ & Hw)];
      [|left; by rewrite He in Hin; simpl in Hin; rewrite Hw in Hin].
    rewrite (executeGraph_staged _ _ _ _ _ Hr Hu) in Hin.
    destruct (validate _ _) as [x|] eqn:Hv.
    + left. simpl in Hin. apply elem_of_app in Hin as [?|Hin]; [done|].
      by apply list_elem_of_singleton in Hin.
    + revert Hin. unfold lift, call_execGraph, bind, modify.
      destruct (pyaml_dump E (st_cis r)) as [x|text] eqn:Hdump; [by left|]. simpl.
      intros Hin.
      assert (Dispatch y n ∈ (calls w ++ [Dispatch text (login u)])%list) as Hin2.
      { by destruct (execGraph E text (login u)). }
      apply elem_of_app in Hin2 as [?|Hnew]; [by left|].
      apply list_elem_of_singleton in Hnew as [= -> ->].
      right. by exists u, r.
  - intros u r y Hu [Hr Hv] Hdump.
    rewrite (executeGraph_staged _ _ _ _ _ Hr Hu), Hv.
    unfold lift, call_execGraph, bind, modify. rewrite Hdump. simpl.
    by destruct (execGraph _ _ _).
Qed.

Lemma dispatch_only_validated_under_own_login_witness :
  executeGraph Sample.engine Sample.valid_body (Sample.visit (Some Sample.alice))
  = (Ok (JStr "alice"),
     with_call (Dispatch "models: []" "alice")
       (with_raw true (unstaged Sample.valid_run (Sample.visit (Some Sample.alice))))).
Proof.
  exact (proj2 (dispatch_only_validated_under_own_login Sample.engine Sample.valid_body
           (Sample.visit (Some Sample.alice)))
           Sample.alice Sample.valid_run "models: []" eq_refl
           (sample_accepted (Some Sample.alice)) eq_refl).
Defined.

(** X6. convertGraph and executeGraph mark the response raw only once the
    graph has passed validation, and from then on it is marked, also when
    [pyaml.dump] or the dispatch raises afterwards. *)
Theorem raw_response_once_validated (E : Engine) graph w :
  raw w = false →
  (raw (convertGraph E graph w).2 = true ↔ ∃ r : staging E, accepted graph w r) ∧
  (raw (executeGraph E graph w).2 = true ↔
     ∃ r : staging E, accepted graph w r ∧ is_Some (session w)).
Proof.
  intros Hraw. split; split.
  - intros Hset. revert Hset. crunch; try congruence;
      rewrite insert_insert_eq in *; intros _;
      (eexists (Staging _ _ _ _ _ _); split;
        [eexists _, _, _; split_and!; simpl; eauto|simpl; eauto]).
  - intros [r [Hr Hv]]. rewrite (convertGraph_staged _ _ _ _ Hr), Hv.
    unfold lift. by destruct (pyaml_dump _ _).
  - intros Hset. revert Hset. crunch; try congruence;
      rewrite insert_insert_eq in *; intros _;
      (eexists (Staging _ _ _ _ _ _); split; [split|by eexists];
        [eexists _, _, _; split_and!; simpl; eauto|simpl; eauto]).
  - intros [r [[Hr Hv] [u Hu]]]. rewrite (executeGraph_staged _ _ _ _ _ Hr Hu), Hv.
    unfold lift, call_execGraph, bind, modify.
    destruct (pyaml_dump _ _); [done|]. simpl. by destruct (execGraph _ _ _).
Qed.

Lemma raw_response_once_validated_witness :
  raw (Sample.visit None) = false ∧
  raw (convertGraph Sample.engine Sample.valid_body (Sample.visit None)).2 = true.
Proof.
  split; [reflexivity|].
  apply (proj2 (proj1 (raw_response_once_validated Sample.engine Sample.valid_body
           (Sample.visit None) eq_refl))).
  exists Sample.valid_run. apply sample_accepted.
Defined.

(** ** Updating, once more *)

(** What an update hands to the storage model, as far as [public] goes. *)
Lemma updateGraph_outcome_public (S : Storage) (graphObj : doc) (graph : json) w :
  (∃ e, updateGraph S graphObj graph w = (Err e, w)) ∨
  (∃ g, updateGraph S graphObj graph w = model_updateGraph S g w ∧
        (g !! "public" = graphObj !! "public" ∨
         ∃ p, g !! "public" = Some p ∧
              (truthy p = false ∨ ∃ u, session w = Some u ∧ admin u = true))).
Proof.
  unfold updateGraph. run.
  destruct graph as [| | | | |m]; try (left; by eexists).
  destruct (m !! "name") as [name|]; [|left; by eexists].
  destruct (m !! "content") as [content|]; [|left; by eexists].
  destruct (m !! "public") as [public|]; simpl.
  - destruct (truthy public) eqn:Htruthy.
    + destruct (session w) as [u|]; simpl; [|left; by eexists].
      destruct (admin u) eqn:Hadmin; simpl; [|left; by eexists].
      right. eexists. split; [done|]. right. exists public.
      split; [apply lookup_insert_eq|]. right. by exists u.
    + right. eexists. split; [done|]. right. exists public.
      split; [apply lookup_insert_eq|by left].
  - right. eexists. split; [done|]. left. by rewrite !lookup_insert_ne.
Qed.

(** X7. Whatever the body, an update by a user who is not an
    administrator never hands the storage model a record made public:
    the record saved and returned has the [public] the loaded record had,
    or the falsy one the body asked for. *)
Theorem updateGraph_non_admin_never_publishes (S : Storage) (graphObj : doc)
    (graph : json) w :
  (∀ u, session w = Some u → admin u = false) →
  (∀ g, Persist g ∈ calls (updateGraph S graphObj graph w).2 →
        Persist g ∈ calls w ∨
        g !! "public" = graphObj !! "public" ∨
        ∃ p, g !! "public" = Some p ∧ truthy p = false) ∧
  (∀ g w', updateGraph S graphObj graph w = (Ok g, w') →
        g !! "public" = graphObj !! "public" ∨
        ∃ p, g !! "public" = Some p ∧ truthy p = false).
Proof.
  intros Hplain.
  destruct (updateGraph_outcome_public S graphObj graph w)
    as [[e ->]|(g & -> & Hpublic)]; [split; [by left|done]|].
  assert (g !! "public" = graphObj !! "public" ∨
          ∃ p, g !! "public" = Some p ∧ truthy p = false) as Hg.
  { destruct Hpublic as [?|(p & ? & [?|(u & Hu & Hadmin)])]; [by left|right; by exists p|].
    by rewrite (Hplain u Hu) in Hadmin. }
  destruct (model_updateGraph_saved S g w)
    as (g' & w' & id & -> & _ & _ & Hcalls & _ & Hkeys).
  split.
  - simpl. rewrite Hcalls. intros g0 [?|Hnew]%elem_of_app; [by left|].
    apply list_elem_of_singleton in Hnew as [= ->]. by right.
  - intros g0 w0 [= <- <-]. by rewrite Hkeys.
Qed.

Lemma updateGraph_non_admin_never_publishes_witness :
  let g : doc :=
    <["updated" := utcnow Sample.storage]>
      (<["public" := JStr ""]>
         (<["content" := JStr "models: []"]> (<["name" := JStr "Plant"]> Sample.plant))) in
  g !! "public" = Sample.plant !! "public" ∨
  ∃ p, g !! "public" = Some p ∧ truthy p = false.
Proof.
  apply (proj2 (updateGraph_non_admin_never_publishes Sample.storage Sample.plant
                  (Sample.rename (Some (JStr ""))) (Sample.visit (Some Sample.alice))
                  ltac:(intros u [= <-]; reflexivity))
           _
           (updateGraph Sample.storage Sample.plant (Sample.rename (Some (JStr "")))
              (Sample.visit (Some Sample.alice))).2).
  vm_compute. reflexivity.
Defined.

(** ** The routes *)

#[local] Arguments String.eqb : simpl never.
#[local] Arguments wildcard : simpl never.

(** Routes are closed lists: their wildcards are settled by evaluation,
    the comparisons with the request's segments by cases. *)
Ltac settle_routes :=
  repeat (simpl;
          repeat match goal with
                 | |- context [wildcard ?r] =>
                     let v := eval vm_compute in (wildcard r) in
                     change (wildcard r) with v
                 end);
  repeat match goal with
         | |- context [String.eqb ?r ?p] =>
             let H := fresh "Hseg" in
             destruct (String.eqb r p) eqn:H;
             [apply String.eqb_eq in H|]; simpl
         end.

(** X8. The table of routes is unambiguous: no request matches two of the
    declared routes.  A single path segment is an identifier for GET
    whatever it says, while POST knows only [convert] and [execute]. *)
Theorem routes_unambiguous :
  (∀ m path, (List.length (matching m path) ≤ 1)%nat) ∧
  (∀ id, matching GET [id] = [(GetGraph, [("id", id)])]) ∧
  (∀ segment,
     matching POST [segment] =
       if String.eqb "convert" segment then [(ConvertGraph, [])]
       else if String.eqb "execute" segment then [(ExecuteGraph, [])]
       else []) ∧
  (∀ name, matching GET ["execute"; name; "logs"] = [(GetLogs, [("name", name)])]).
Proof.
  split_and!.
  - intros m path. unfold matching, routes.
    destruct m; destruct path as [|a [|b [|c [|d rest]]]];
      settle_routes; simplify_eq; simpl; lia.
  - intros id. unfold matching, routes. by settle_routes.
  - intros segment. unfold matching, routes. settle_routes; by simplify_eq.
  - intros name. unfold matching, routes. by settle_routes.
Qed.

Ltac run_route :=
  unfold POST_graph, PUT_graph_id, DELETE_graph_id, POST_graph_execute,
    GET_graph_execute_logs, GET_graph_id, GET_graph, access_user, access_public,
    filtermodel, filtermodel_list, modelParam, model_load, getGraph, deleteGraph,
    model_remove, getLogs, listGraphs, user_load in *;
  run.

(** X9. A caller without a session is turned away from every route
    declared [@access.user] (create, update, delete, execute, logs) with
    the framework's AccessException, answered 401, and the world is as it
    was: nothing is stored, staged or dispatched. *)
Theorem anonymous_is_turned_away (E : Engine) (S : Storage) (X : Site)
    (id name : string) (body : json) w :
  session w = None →
  POST_graph S body w = (Err must_log_in, w) ∧
  PUT_graph_id S id body w = (Err must_log_in, w) ∧
  DELETE_graph_id S id w = (Err must_log_in, w) ∧
  POST_graph_execute E body w = (Err must_log_in, w) ∧
  GET_graph_execute_logs X name w = (Err must_log_in, w) ∧
  status false must_log_in = 401%Z.
Proof.
  intros Hanon.
  unfold POST_graph, PUT_graph_id, DELETE_graph_id, POST_graph_execute,
    GET_graph_execute_logs, access_user, getCurrentUser, gets.
  by rewrite !bind_run, Hanon.
Qed.

Lemma anonymous_is_turned_away_witness :
  session (Sample.visit None) = None ∧
  POST_graph_execute Sample.engine Sample.valid_body (Sample.visit None)
  = (Err must_log_in, Sample.visit None).
Proof.
  split; [reflexivity|].
  exact (proj1 (proj2 (proj2 (proj2 (anonymous_is_turned_away Sample.engine
           Sample.storage SampleSite.site "g1" "job" Sample.valid_body
           (Sample.visit None) eq_refl))))).
Defined.

(** X10. [PUT /graph/:id] changes the world only for a logged-in user to
    whom the framework grants WRITE access on the stored record named;
    for such a user it is updateGraph on that record. *)
Theorem PUT_needs_write_access (S : Storage) (id : string) (body : json) w :
  (∀ u g, session w = Some u → validObjectId S id = true → db w !! id = Some g →
          hasAccess S g (Some u) WRITE = true →
          PUT_graph_id S id body w = updateGraph S g body w) ∧
  ((PUT_graph_id S id body w).2 ≠ w →
   ∃ u g, session w = Some u ∧ validObjectId S id = true ∧ db w !! id = Some g ∧
          hasAccess S g (Some u) WRITE = true).
Proof.
  split.
  - intros u g Hu Hvalid Hfound Haccess. run_route.
    by rewrite Hu; simpl; rewrite Hvalid, Hfound, Hu, Haccess.
  - run_route. destruct (session w) as [u|] eqn:Hu; simpl; [|done].
    destruct (validObjectId S id) eqn:Hvalid; simpl; [|done].
    destruct (db w !! id) as [g|] eqn:Hfound; simpl; [|done].
    rewrite Hu. destruct (hasAccess S g (Some u) WRITE) eqn:Haccess; simpl; [|done].
    intros _. by exists u, g.
Qed.

Lemma PUT_needs_write_access_witness :
  PUT_graph_id Sample.storage "g1" (Sample.rename None) (Sample.visit (Some Sample.root))
  = updateGraph Sample.storage Sample.plant (Sample.rename None)
      (Sample.visit (Some Sample.root)).
Proof.
  exact (proj1 (PUT_needs_write_access Sample.storage "g1" (Sample.rename None)
           (Sample.visit (Some Sample.root)))
           Sample.root Sample.plant eq_refl eq_refl eq_refl eq_refl).
Defined.

(** X11. [DELETE /graph/:id] changes the world only for a logged-in user
    to whom the framework grants ADMIN access on the stored record named:
    WRITE access does not come into it.  For such a user it is deleteGraph
    on that record. *)
Theorem DELETE_needs_admin_access (S : Storage) (id : string) w :
  (∀ u g, session w = Some u → validObjectId S id = true → db w !! id = Some g →
          hasAccess S g (Some u) ADMIN = true →
          DELETE_graph_id S id w = deleteGraph g w) ∧
  (∀ u g, session w = Some u → validObjectId S id = true → db w !! id = Some g →
          hasAccess S g (Some u) ADMIN = false →
          DELETE_graph_id S id w
          = (Err (AccessException ("Admin access denied for graph " ++ id)), w)) ∧
  ((DELETE_graph_id S id w).2 ≠ w →
   ∃ u g, session w = Some u ∧ validObjectId S id = true ∧ db w !! id = Some g ∧
          hasAccess S g (Some u) ADMIN = true).
Proof.
  split_and!.
  - intros u g Hu Hvalid Hfound Haccess. run_route.
    by rewrite Hu; simpl; rewrite Hvalid, Hfound, Hu, Haccess.
  - intros u g Hu Hvalid Hfound Haccess. run_route.
    by rewrite Hu; simpl; rewrite Hvalid, Hfound, Hu, Haccess.
  - run_route. destruct (session w) as [u|] eqn:Hu; simpl; [|done].
    destruct (validObjectId S id) eqn:Hvalid; simpl; [|done].
    destruct (db w !! id) as [g|] eqn:Hfound; simpl; [|done].
    rewrite Hu. destruct (hasAccess S g (Some u) ADMIN) eqn:Haccess; simpl; [|done].
    intros _. by exists u, g.
Qed.

Lemma DELETE_needs_admin_access_witness :
  DELETE_graph_id Sample.storage "g2" (Sample.visit (Some Sample.alice))
  = (Err (AccessException ("Admin access denied for graph " ++ "g2")),
     Sample.visit (Some Sample.alice)).
Proof.
  exact (proj1 (proj2 (DELETE_needs_admin_access Sample.storage "g2"
           (Sample.visit (Some Sample.alice))))
           Sample.alice Sample.shared eq_refl eq_refl eq_refl eq_refl).
Defined.

(** The loader of [GET /graph/:id], for every identifier. *)
Lemma GET_graph_id_cases (S : Storage) (id : string) w :
  GET_graph_id S id w =
    if validObjectId S id then
      match db w !! id with
      | Some g => (Ok (model_filter S g (session w)), w)
      | None => (Err (RestException ("Invalid graph id (" ++ id ++ ").") 400 None), w)
      end
    else (Err (ValidationException ("Invalid ObjectId: " ++ id)), w).
Proof.
  run_route. destruct (validObjectId S id); [|done]. simpl.
  by destruct (db w !! id).
Qed.

(** X12. [GET /graph/:id] never ends in an access error, whatever the
    access decision says about the caller and whatever the model's filter
    makes of it: a record that the identifier names is answered, as the
    filter shows it to the caller, one that it does not name is an
    invalid-id error, and the world is left as it was. *)
Theorem GET_graph_id_never_refuses (S : Storage) (id : string) w :
  (∀ message, (GET_graph_id S id w).1 ≠ Err (AccessException message)) ∧
  (GET_graph_id S id w).2 = w ∧
  (∀ g, validObjectId S id = true → db w !! id = Some g →
        GET_graph_id S id w = (Ok (model_filter S g (session w)), w)) ∧
  (validObjectId S id = true → db w !! id = None →
        ∃ message, GET_graph_id S id w = (Err (RestException message 400 None), w)).
Proof.
  split_and!.
  - intros message. rewrite GET_graph_id_cases. destruct (validObjectId S id); [|done].
    by destruct (db w !! id).
  - rewrite GET_graph_id_cases. destruct (validObjectId S id); [|done].
    by destruct (db w !! id).
  - intros g Hvalid Hfound. by rewrite GET_graph_id_cases, Hvalid, Hfound.
  - intros Hvalid Habsent. eexists. by rewrite GET_graph_id_cases, Hvalid, Habsent.
Qed.

Lemma GET_graph_id_never_refuses_witness :
  hasAccess SampleSite.guarded Sample.plant None READ = false ∧
  GET_graph_id SampleSite.guarded "g1" (Sample.visit None)
  = (Ok (<["_accessLevel" := JNum (-1)]> ∅), Sample.visit None).
Proof.
  split; [reflexivity|].
  exact (proj1 (proj2 (proj2 (GET_graph_id_never_refuses SampleSite.guarded "g1"
           (Sample.visit None)))) Sample.plant eq_refl eq_refl).
Defined.

Lemma PUT_graph_id_granted (S : Storage) (id : string) (body : json) w u g :
  session w = Some u → validObjectId S id = true → db w !! id = Some g →
  hasAccess S g (Some u) WRITE = true →
  PUT_graph_id S id body w = updateGraph S g body w.
Proof.
  intros Hu Hvalid Hfound Haccess. run_route.
  by rewrite Hu; simpl; rewrite Hvalid, Hfound, Hu, Haccess.
Qed.

(** X13. What an accepted [PUT /graph/:id] stores is what a following
    [GET /graph/:id] shows: the record with the body's name and content,
    and the body's [public] when it has one, under the same identifier;
    the other records are as they were.  The update is accepted when the
    user has WRITE access, the body has name and content, and a truthy
    [public] comes from an administrator. *)
Theorem PUT_then_GET (S : Storage) (id : string) (m : doc) w u g name content :
  session w = Some u → validObjectId S id = true →
  db w !! id = Some g → g !! "_id" = Some (JStr id) →
  hasAccess S g (Some u) WRITE = true →
  m !! "name" = Some name → m !! "content" = Some content →
  (∀ p, m !! "public" = Some p → truthy p = true → admin u = true) →
  ∃ g' w',
    PUT_graph_id S id (JObj m) w = (Ok g', w') ∧
    g' !! "name" = Some name ∧ g' !! "content" = Some content ∧
    g' !! "public" = match m !! "public" with
                     | Some p => Some p
                     | None => g !! "public"
                     end ∧
    GET_graph_id S id w' = (Ok (model_filter S g' (Some u)), w') ∧
    ∀ other, other ≠ id → db w' !! other = db w !! other.
Proof.
  intros Hu Hvalid Hfound Hid Haccess Hname Hcontent Hpublic.
  rewrite (PUT_graph_id_granted S id (JObj m) w u g Hu Hvalid Hfound Haccess).
  set (g1 := <["content" := content]> (<["name" := name]> g)).
  assert (∃ g', updateGraph S g (JObj m) w = model_updateGraph S g' w ∧
                g' !! "_id" = Some (JStr id) ∧
                g' !! "name" = Some name ∧ g' !! "content" = Some content ∧
                g' !! "public" = match m !! "public" with
                                 | Some p => Some p
                                 | None => g !! "public"
                                 end) as (g' & -> & Hid' & Hn & Hc & Hp).
  { unfold updateGraph. run. rewrite Hu, Hname, Hcontent.
    destruct (m !! "public") as [p|] eqn:Hp; simpl.
    - exists (<["public" := p]> g1). subst g1. split_and!.
      + destruct (truthy p) eqn:Htruthy; [|done]. simpl.
        by rewrite (Hpublic p eq_refl Htruthy).
      + by rewrite !lookup_insert_ne.
      + by rewrite lookup_insert_ne, lookup_insert_ne, lookup_insert_eq.
      + by rewrite lookup_insert_ne, lookup_insert_eq.
      + apply lookup_insert_eq.
    - exists g1. subst g1. split_and!; [done|..].
      + by rewrite !lookup_insert_ne.
      + by rewrite lookup_insert_ne, lookup_insert_eq.
      + apply lookup_insert_eq.
      + by rewrite !lookup_insert_ne. }
  rewrite (model_updateGraph_known S g' w id Hid').
  eexists _, _. split_and!; [done|by rewrite lookup_insert_ne..| |].
  - rewrite GET_graph_id_cases, Hvalid. simpl. by rewrite lookup_insert_eq, Hu.
  - intros other Hother. simpl. by rewrite lookup_insert_ne.
Qed.

Lemma PUT_then_GET_witness :
  ∃ g' w',
    PUT_graph_id Sample.storage "g1" (Sample.rename None)
      (Sample.visit (Some Sample.root)) = (Ok g', w') ∧
    g' !! "name" = Some (JStr "Plant") ∧
    GET_graph_id Sample.storage "g1" w' = (Ok g', w').
Proof.
  destruct (PUT_then_GET Sample.storage "g1"
              (<["name" := JStr "Plant"]> (<["content" := JStr "models: []"]> ∅))
              (Sample.visit (Some Sample.root)) Sample.root Sample.plant
              (JStr "Plant") (JStr "models: []"))
    as (g' & w' & Hput & Hname & _ & _ & Hget & _); try reflexivity.
  exists g', w'. split; [exact Hput|]. split; [exact Hname|exact Hget].
Defined.

(** ** Listing and logs *)

(** X14. listGraphs filters by creator only when [userId] is given and not
    empty: an empty [userId] lists as an absent one does.  A [userId] that
    names no user ends the call with a ValidationException and no list;
    [text] and the remaining parameters make no difference; and the world
    is as it was. *)
Theorem listGraphs_by_creator (S : Storage) (X : Site) (userId text : option string)
    (limit offset : Z) (sort : list (string * Z)) (params : gmap string string) w :
  (given userId = false →
     listGraphs S X userId text limit offset sort params w
     = (Ok (model_list X None (session w) offset limit sort (db w)), w)) ∧
  (∀ id, userId = Some id → id ≠ "" →
     listGraphs S X userId text limit offset sort params w
     = if validObjectId S id then
         match user_collection X !! id with
         | Some u => (Ok (model_list X (Some u) (session w) offset limit sort (db w)), w)
         | None => (Err (ValidationException ("No such user: " ++ id)), w)
         end
       else (Err (ValidationException ("Invalid ObjectId: " ++ id)), w)) ∧
  (∀ text' params',
     listGraphs S X userId text' limit offset sort params' w
     = listGraphs S X userId text limit offset sort params w) ∧
  (listGraphs S X userId text limit offset sort params w).2 = w ∧
  (given userId = false →
     GET_graph S X userId text limit offset sort params w
     = (Ok (map (λ g, model_filter S g (session w))
              (model_list X None (session w) offset limit sort (db w))), w)).
Proof.
  split_and!; [| | | |intros Hnone; run_route; by rewrite Hnone].
  - intros Hnone. run_route. by rewrite Hnone.
  - intros id -> Hid. run_route.
    assert (String.eqb id "" = false) as -> by (by apply String.eqb_neq). simpl.
    destruct (validObjectId S id); [|done].
    by destruct (user_collection X !! id).
  - done.
  - run_route. destruct (given userId); [|done]. simpl.
    destruct (validObjectId S _); [|done].
    by destruct (user_collection X !! _).
Qed.

Lemma listGraphs_by_creator_witness :
  listGraphs Sample.storage SampleSite.site (Some "") (Some "plant") 50 0 [] ∅
    (Sample.visit None)
  = (Ok (model_list SampleSite.site None None 0 50 [] Sample.graphs), Sample.visit None).
Proof.
  exact (proj1 (listGraphs_by_creator Sample.storage SampleSite.site (Some "")
           (Some "plant") 50 0 [] ∅ (Sample.visit None)) eq_refl).
Defined.

(** X15. The logs route asks the job system for the named job under the
    login of the session's user and the fixed job type k8s.io/yggdrasil,
    hands back its answer or its exception, and leaves the world as it
    was; the handler on its own, without a user, ends in TypeError. *)
Theorem logs_under_own_login (X : Site) (name : string) w :
  (∀ u, session w = Some u →
     GET_graph_execute_logs X name w
     = (match utils_getLogs X name "k8s.io/yggdrasil" (login u) with
        | inr answer => Ok answer
        | inl text => Err (Raised text)
        end, w)) ∧
  (session w = None → getLogs X name w = (Err TypeError, w)) ∧
  (GET_graph_execute_logs X name w).2 = w.
Proof.
  split_and!.
  - intros u Hu. run_route. rewrite Hu. simpl. rewrite Hu. simpl.
    by destruct (utils_getLogs _ _ _ _).
  - intros Hu. run_route. by rewrite Hu.
  - run_route. destruct (session w) as [u|] eqn:Hu; simpl; [|done].
    rewrite Hu. simpl. by destruct (utils_getLogs _ _ _ _).
Qed.

Lemma logs_under_own_login_witness :
  GET_graph_execute_logs SampleSite.site "job-7" (Sample.visit (Some Sample.alice))
  = (Ok (JStr "k8s.io/yggdrasil:alice:job-7"), Sample.visit (Some Sample.alice)).
Proof.
  exact (proj1 (logs_under_own_login SampleSite.site "job-7"
           (Sample.visit (Some Sample.alice))) Sample.alice eq_refl).
Defined.

(** ** Converting is the same for everyone *)

(** X16. What convertGraph answers depends on the body and on the files
    only: not on who calls, nor on what is stored, nor on what was called
    before. *)
Theorem convertGraph_same_for_everyone (E : Engine) graph w1 w2 :
  fs w1 = fs w2 →
  (convertGraph E graph w1).1 = (convertGraph E graph w2).1.
Proof.
  destruct w1 as [db1 fs1 s1 raw1 calls1], w2 as [db2 fs2 s2 raw2 calls2].
  simpl. intros ->. run.
  destruct graph as [| | | | |m]; try done.
  destruct (m !! "content") as [content|]; [|done].
  destruct (fbpToCis E content) as [x|converted]; [done|]. simpl.
  destruct (safe_dump E (as_str E converted)) as [x|text]; [done|]. simpl.
  rewrite !insert_insert_eq.
  destruct (prep_yaml E _ _) as [x|prep]; [done|]. simpl.
  rewrite !lookup_insert_eq.
  destruct (get_schema E) as [x|s]; [done|]. simpl.
  destruct (normalize s prep) as [x|norm]; [done|]. simpl.
  destruct (validate s norm) as [e|]; [done|]. simpl.
  by destruct (pyaml_dump E (as_str E converted)).
Qed.

Lemma convertGraph_same_for_everyone_witness :
  (convertGraph Sample.engine Sample.valid_body (Sample.visit None)).1
  = (convertGraph Sample.engine Sample.valid_body (Sample.visit (Some Sample.root))).1.
Proof.
  exact (convertGraph_same_for_everyone Sample.engine Sample.valid_body
           (Sample.visit None) (Sample.visit (Some Sample.root)) eq_refl).
Defined.
